(** * A shallow embedding of the Users and Journal clients (src/users.ts,
      src/journal.ts)

    Every public method of the two classes builds a request, awaits one
    [fetch], and either returns a value or throws.  The embedding keeps
    that shape: a method is a computation in a small state-and-exception
    monad whose state holds the receiver object ([this]) and the trace of
    the calls made to [fetch].

    What the JavaScript runtime provides ([new URL], [JSON.stringify],
    the conversion of numbers to strings, the network behind [fetch]) is
    gathered in a record [Runtime]; the theorems hold for every runtime.
    [Errors.HandleError] lives in src/errors.ts, which is not part of the
    sources at hand, and is a parameter as well. *)

From Stdlib Require Import String Ascii List ZArith Bool Lia DecimalString.
From Stdlib Require Import Permutation.
Import ListNotations.

Set Warnings "-register-all".

Local Open Scope list_scope.
Local Open Scope string_scope.

(* ================================================================== *)
(** ** JavaScript values *)
(* ================================================================== *)

(** The values that cross the client: JSON data and [undefined].
    [JNum n] is the Number nearest to the integer [n] (offsets, limits,
    status codes).  An object is a plain object (its prototype
    is [Object.prototype]), given by the list of its own enumerable
    string-keyed properties, in property order. *)
Inductive JsValue : Type :=
| JUndefined
| JNull
| JBool (b : bool)
| JNum (n : Z)
| JStr (s : string)
| JArr (items : list JsValue)
| JObj (props : list (string * JsValue)).

(** A value of an object type of defs.ts ([User], [Login],
    [PageMetadata], ...): never [null] or [undefined]. *)
Definition JsObject : Type := list (string * JsValue).

(** How a statement list ends: with a value, or with a thrown value. *)
Inductive Completion (A : Type) : Type :=
| Return (a : A)
| Throw (e : JsValue).
Arguments Return {A} a.
Arguments Throw {A} e.

(** How a promise settles. *)
Inductive Settled (A : Type) : Type :=
| Resolved (a : A)
| Rejected (e : JsValue).
Arguments Resolved {A} a.
Arguments Rejected {A} e.

(** One step after the other; a throw ends the evaluation. *)
Definition and_then {A B} (c : Completion A) (k : A -> Completion B)
  : Completion B :=
  match c with
  | Return a => k a
  | Throw e => Throw e
  end.

(** A [TypeError] raised by the runtime itself. *)
Definition TypeError (message : string) : JsValue :=
  JObj [("name", JStr "TypeError"); ("message", JStr message)].

(** Own-property lookup in a property list; a missing property reads as
    [undefined]. *)
Fixpoint get (key : string) (o : JsObject) : JsValue :=
  match o with
  | [] => JUndefined
  | (k, v) :: rest => if String.eqb k key then v else get key rest
  end.

(** Whether an object has an own property of that name. *)
Definition has_own (key : string) (o : JsObject) : bool :=
  existsb (fun kv => String.eqb (fst kv) key) o.

(** [value.key] on an arbitrary value, for the property names the client
    reads ([message], [username]), none of which exists on a built-in
    prototype: [null] and [undefined] throw, objects are searched,
    everything else reads as [undefined]. *)
Definition GetV (v : JsValue) (key : string) : Completion JsValue :=
  match v with
  | JUndefined =>
      Throw (TypeError ("Cannot read properties of undefined (reading '"
                          ++ key ++ "')"))
  | JNull =>
      Throw (TypeError ("Cannot read properties of null (reading '"
                          ++ key ++ "')"))
  | JObj props => Return (get key props)
  | _ => Return JUndefined
  end.

(** [value?.key]. *)
Definition optional_chain (v : JsValue) (key : string) : JsValue :=
  match v with
  | JObj props => get key props
  | _ => JUndefined
  end.

(** [Object.entries(o)]. *)
Definition Object_entries (o : JsObject) : list (string * JsValue) := o.

(** [array.map(callback)] for a callback that may throw: the elements
    are visited in order and the first throw ends the visit. *)
Fixpoint Array_map {A B} (callback : A -> Completion B) (l : list A)
  : Completion (list B) :=
  match l with
  | [] => Return []
  | x :: rest =>
      and_then (callback x) (fun y =>
      and_then (Array_map callback rest) (fun ys => Return (y :: ys)))
  end.

(** One [CreateDataProperty]: an existing key keeps its place and takes
    the new value, a new key goes last. *)
Fixpoint define_property {V} (key : string) (v : V) (o : list (string * V))
  : list (string * V) :=
  match o with
  | [] => [(key, v)]
  | (k, old) :: rest =>
      if String.eqb k key then (k, v) :: rest
      else (k, old) :: define_property key v rest
  end.

(** [Object.fromEntries(entries)]. *)
Definition Object_fromEntries {V} (entries : list (string * V))
  : list (string * V) :=
  fold_left (fun o kv => define_property (fst kv) (snd kv) o) entries [].

(** The value a [Record<string, string>] holds under a key. *)
Fixpoint lookup (key : string) (record : list (string * string))
  : option string :=
  match record with
  | [] => None
  | (k, v) :: rest => if String.eqb k key then Some v else lookup key rest
  end.

(* ================================================================== *)
(** ** The web platform: URLSearchParams, URL, Request, Response *)
(* ================================================================== *)

Definition in_range (lo hi c : ascii) : bool :=
  (nat_of_ascii lo <=? nat_of_ascii c)%nat
  && (nat_of_ascii c <=? nat_of_ascii hi)%nat.

Definition is_digit (c : ascii) : bool := in_range "0" "9" c.

Definition is_alpha (c : ascii) : bool :=
  in_range "a" "z" c || in_range "A" "Z" c.

Definition is_alnum (c : ascii) : bool := is_alpha c || is_digit c.

Definition hex_digit (n : nat) : ascii :=
  if (n <? 10)%nat then ascii_of_nat (48 + n) else ascii_of_nat (55 + n).

(** The bytes the application/x-www-form-urlencoded serializer leaves
    alone. *)
Definition urlencoded_plain (c : ascii) : bool :=
  is_alnum c
  || Ascii.eqb c "*" || Ascii.eqb c "-" || Ascii.eqb c "."
  || Ascii.eqb c "_".

(** Strings are the UTF-8 bytes of the JavaScript string, so the
    serializer works byte by byte. *)
Fixpoint urlencode (s : string) : string :=
  match s with
  | EmptyString => EmptyString
  | String c rest =>
      if urlencoded_plain c then String c (urlencode rest)
      else if Ascii.eqb c " " then String "+" (urlencode rest)
      else
        let n := nat_of_ascii c in
        String "%"
          (String (hex_digit (n / 16))
             (String (hex_digit (n mod 16)) (urlencode rest)))
  end.

(** [new URLSearchParams(record).toString()] for a
    [Record<string, string>]. *)
Fixpoint URLSearchParams_toString (record : list (string * string))
  : string :=
  match record with
  | [] => ""
  | (k, v) :: rest =>
      let pair := urlencode k ++ "=" ++ urlencode v in
      match rest with
      | [] => pair
      | _ :: _ => pair ++ "&" ++ URLSearchParams_toString rest
      end
  end.

(** A URL object, through the attributes the clients and their
    specification look at: [search] is the query string with its
    question mark, or empty when there is no query. *)
Record URL : Type := { href : string; host : string; search : string }.

(** [url.toString()]. *)
Definition URL_toString (u : URL) : string := href u.

(** The second argument of [fetch]. *)
Record RequestInit : Type := {
  method : string;
  headers : list (string * string);
  body : option string
}.

(** One call of [fetch]. *)
Record Request : Type := { url : string; init : RequestInit }.

(** A response: its status and what [response.json()] settles to. *)
Record Response : Type := { status : Z; json : Settled JsValue }.

(** [response.ok]: the status is in the range 200-299. *)
Definition ok (r : Response) : bool :=
  (200 <=? status r)%Z && (status r <=? 299)%Z.

(** The value of a header in a headers literal. *)
Fixpoint header (name : string) (hs : list (string * string))
  : option string :=
  match hs with
  | [] => None
  | (k, v) :: rest => if String.eqb k name then Some v else header name rest
  end.

(** What the clients take from the JavaScript runtime. *)
Record Runtime : Type := {
  (** [new URL(input, base)]; [None] when the constructor throws. *)
  URL_new : string -> option URL -> option URL;
  (** [JSON.stringify(value)]; [None] when the result is [undefined]. *)
  JSON_stringify : JsValue -> option string;
  (** [String(n)] for a Number [n]. *)
  Number_toString : Z -> string;
  (** What the network answers to a request, given the requests made
      before it. *)
  network : list Request -> Request -> Settled Response
}.

(** What [String(value)] and a template literal throw on an object they
    cannot turn into a primitive. *)
Definition cannot_convert : JsValue :=
  TypeError "Cannot convert object to primitive value".

(** [String(value)], which is also what a template literal applies to
    each substitution.  A plain object is converted by the [toString] it
    inherits, unless it has an own property of that name: an own
    [toString] that is data is not callable, [valueOf] hands the object
    back, and the conversion throws.  An array joins the conversions of
    its elements. *)
Fixpoint ToString (rt : Runtime) (v : JsValue) : Completion string :=
  match v with
  | JUndefined => Return "undefined"
  | JNull => Return "null"
  | JBool true => Return "true"
  | JBool false => Return "false"
  | JNum n => Return (Number_toString rt n)
  | JStr s => Return s
  | JArr items =>
      (fix join (l : list JsValue) : Completion string :=
         match l with
         | [] => Return ""
         | x :: rest =>
             and_then
               match x with
               | JUndefined | JNull => Return ""
               | _ => ToString rt x
               end
               (fun piece =>
                  match rest with
                  | [] => Return piece
                  | _ :: _ =>
                      and_then (join rest) (fun others =>
                      Return (piece ++ "," ++ others))
                  end)
         end) items
  | JObj props =>
      if has_own "toString" props then Throw cannot_convert
      else Return "[object Object]"
  end.

(** [`${token}`] for an argument of type [string | undefined]. *)
Definition interpolate (token : option string) : string :=
  match token with
  | Some t => t
  | None => "undefined"
  end.

(** [stringParams]: every query parameter, turned into a string. *)
Definition string_params (rt : Runtime) (queryParams : JsObject)
  : Completion (list (string * string)) :=
  and_then
    (Array_map
       (fun '(key, value) =>
          and_then (ToString rt value) (fun text => Return (key, text)))
       (Object_entries queryParams))
    (fun entries => Return (Object_fromEntries entries)).

(* ================================================================== *)
(** ** The monad of method bodies *)
(* ================================================================== *)

(** The receiver and the calls of [fetch] so far, oldest first. *)
Record Store (T : Type) : Type := { self : T; fetched : list Request }.
Arguments self {T} _.
Arguments fetched {T} _.

Definition M (T A : Type) : Type := Store T -> Completion A * Store T.

Definition ret {T A} (a : A) : M T A := fun s => (Return a, s).

Definition throw {T A} (e : JsValue) : M T A := fun s => (Throw e, s).

Definition bind {T A B} (m : M T A) (k : A -> M T B) : M T B :=
  fun s =>
    match m s with
    | (Return a, s') => k a s'
    | (Throw e, s') => (Throw e, s')
    end.

(** [try { body } catch (error) { handler }]. *)
Definition try_catch {T A} (body : M T A) (handler : JsValue -> M T A)
  : M T A :=
  fun s =>
    match body s with
    | (Return a, s') => (Return a, s')
    | (Throw e, s') => handler e s'
    end.

Declare Scope js_scope.
Delimit Scope js_scope with js.
Notation "x <- m ;; k" := (bind m (fun x => k))
  (at level 100, m at next level, k at level 200, right associativity)
  : js_scope.
Notation "m ;;; k" := (bind m (fun _ => k))
  (at level 100, k at level 200, right associativity) : js_scope.
Local Open Scope js_scope.

(** The receiver of the method, [this]. *)
Definition receiver {T} : M T T := fun s => (Return (self s), s).

(** A completion computed without effects. *)
Definition complete {T A} (c : Completion A) : M T A := fun s => (c, s).

(** [await p] for an already settled promise. *)
Definition await {T A} (p : Settled A) : M T A :=
  match p with
  | Resolved a => ret a
  | Rejected e => throw e
  end.

Section Platform.

Variable rt : Runtime.

(** [new URL(input, base)] as an expression: the constructor throws a
    [TypeError] on an input it cannot parse. *)
Definition new_URL (input : string) (base : option URL) : Completion URL :=
  match URL_new rt input base with
  | Some u => Return u
  | None => Throw (TypeError "Invalid URL")
  end.

(** [await fetch(url, options)]: the call is recorded, then the promise
    settles as the network decides. *)
Definition fetch {T} (url : string) (options : RequestInit)
  : M T Response :=
  fun s =>
    let request := {| url := url; init := options |} in
    let s' :=
      {| self := self s; fetched := (fetched s ++ [request])%list |} in
    match network rt (fetched s) request with
    | Resolved response => (Return response, s')
    | Rejected e => (Throw e, s')
    end.

End Platform.

(** The [Response] of defs.ts that three methods build themselves. *)
Definition status_message (code : Z) (message : string) : JsValue :=
  JObj [("status", JNum code); ("message", JStr message)].

(* ================================================================== *)
(** ** class Users (src/users.ts) *)
(* ================================================================== *)

Module Users.

Record t : Type := {
  usersUrl : URL;
  clientsUrl : option URL;
  contentType : string;
  usersEndpoint : string;
  searchEndpoint : string
}.

Section Methods.

Variable rt : Runtime.
Variable HandleError : JsValue -> Z -> JsValue.

Definition constructor (users_url : string) (clients_url : option string)
  : Completion t :=
  and_then (new_URL rt users_url None) (fun users =>
  and_then
    (match clients_url with
     | Some given => new_URL rt given None
     | None => new_URL rt "" None
     end) (fun clients =>
  Return {| usersUrl := users;
            clientsUrl := Some clients;
            contentType := "application/json";
            usersEndpoint := "users";
            searchEndpoint := "search" |})).

Definition Create (user : JsObject) (token : option string) : M t JsValue :=
  this <- receiver ;;
  let options :=
    {| method := "POST";
       headers :=
         [("Content-Type", contentType this);
          ("Authorization", "Bearer " ++ interpolate token)];
       body := JSON_stringify rt (JObj user) |} in
  try_catch
    (target <- complete
       (new_URL rt
          (usersEndpoint this)
          (Some (usersUrl this))) ;;
     response <- fetch rt (URL_toString target) options ;;
     (if negb (ok response) then
        errorRes <- await (json response) ;;
        message <- complete (GetV errorRes "message") ;;
        throw (HandleError message (status response))
      else ret tt) ;;;
     userData <- await (json response) ;;
     ret userData)
    (fun error => throw error).

Definition CreateToken (login : JsObject) : M t JsValue :=
  this <- receiver ;;
  let options :=
    {| method := "POST";
       headers := [("Content-Type", contentType this)];
       body := JSON_stringify rt (JObj login) |} in
  try_catch
    (target <- complete
       (new_URL rt
          (usersEndpoint this ++ "/tokens/issue")
          (Some (usersUrl this))) ;;
     response <- fetch rt (URL_toString target) options ;;
     (if negb (ok response) then
        errorRes <- await (json response) ;;
        message <- complete (GetV errorRes "message") ;;
        throw (HandleError message (status response))
      else ret tt) ;;;
     tokenData <- await (json response) ;;
     ret tokenData)
    (fun error => throw error).

Definition RefreshToken (refreshToken : string) : M t JsValue :=
  this <- receiver ;;
  let options :=
    {| method := "POST";
       headers :=
         [("Content-Type", contentType this);
          ("Authorization", "Bearer " ++ refreshToken)];
       body := None |} in
  try_catch
    (target <- complete
       (new_URL rt
          (usersEndpoint this ++ "/tokens/refresh")
          (Some (usersUrl this))) ;;
     response <- fetch rt (URL_toString target) options ;;
     (if negb (ok response) then
        errorRes <- await (json response) ;;
        message <- complete (GetV errorRes "message") ;;
        throw (HandleError message (status response))
      else ret tt) ;;;
     tokenData <- await (json response) ;;
     ret tokenData)
    (fun error => throw error).

Definition Update (user : JsObject) (token : string) : M t JsValue :=
  this <- receiver ;;
  let options :=
    {| method := "PATCH";
       headers :=
         [("Content-Type", contentType this);
          ("Authorization", "Bearer " ++ token)];
       body := JSON_stringify rt (JObj user) |} in
  try_catch
    (id <- complete (ToString rt (get "id" user)) ;;
     target <- complete
       (new_URL rt
          (usersEndpoint this ++ "/" ++ id)
          (Some (usersUrl this))) ;;
     response <- fetch rt (URL_toString target) options ;;
     (if negb (ok response) then
        errorRes <- await (json response) ;;
        message <- complete (GetV errorRes "message") ;;
        throw (HandleError message (status response))
      else ret tt) ;;;
     userData <- await (json response) ;;
     ret userData)
    (fun error => throw error).

Definition UpdateEmail (user : JsObject) (token : string) : M t JsValue :=
  this <- receiver ;;
  let options :=
    {| method := "PATCH";
       headers :=
         [("Content-Type", contentType this);
          ("Authorization", "Bearer " ++ token)];
       body := JSON_stringify rt (JObj [("email", get "email" user)]) |} in
  try_catch
    (id <- complete (ToString rt (get "id" user)) ;;
     target <- complete
       (new_URL rt
          (usersEndpoint this ++ "/" ++ id ++ "/email")
          (Some (usersUrl this))) ;;
     response <- fetch rt (URL_toString target) options ;;
     (if negb (ok response) then
        errorRes <- await (json response) ;;
        message <- complete (GetV errorRes "message") ;;
        throw (HandleError message (status response))
      else ret tt) ;;;
     userData <- await (json response) ;;
     ret userData)
    (fun error => throw error).

Definition UpdateUsername (user : JsObject) (token : string) : M t JsValue :=
  this <- receiver ;;
  let options :=
    {| method := "PATCH";
       headers :=
         [("Content-Type", contentType this);
          ("Authorization", "Bearer " ++ token)];
       body := JSON_stringify rt
                 (JObj
                    [("username",
                      optional_chain (get "credentials" user)
                        "username")]) |} in
  try_catch
    (id <- complete (ToString rt (get "id" user)) ;;
     target <- complete
       (new_URL rt
          (usersEndpoint this ++ "/" ++ id ++ "/username")
          (Some (usersUrl this))) ;;
     response <- fetch rt (URL_toString target) options ;;
     (if negb (ok response) then
        errorRes <- await (json response) ;;
        message <- complete (GetV errorRes "message") ;;
        throw (HandleError message (status response))
      else ret tt) ;;;
     userData <- await (json response) ;;
     ret userData)
    (fun error => throw error).

Definition UpdateProfilePicture (user : JsObject) (token : string)
  : M t JsValue :=
  this <- receiver ;;
  let options :=
    {| method := "PATCH";
       headers :=
         [("Content-Type", contentType this);
          ("Authorization", "Bearer " ++ token)];
       body := JSON_stringify rt
                 (JObj [("profile_picture", get "profile_picture" user)]) |} in
  try_catch
    (id <- complete (ToString rt (get "id" user)) ;;
     target <- complete
       (new_URL rt
          (usersEndpoint this ++ "/" ++ id ++ "/picture")
          (Some (usersUrl this))) ;;
     response <- fetch rt (URL_toString target) options ;;
     (if negb (ok response) then
        errorRes <- await (json response) ;;
        message <- complete (GetV errorRes "message") ;;
        throw (HandleError message (status response))
      else ret tt) ;;;
     userData <- await (json response) ;;
     ret userData)
    (fun error => throw error).

Definition UpdateUserTags (user : JsObject) (token : string) : M t JsValue :=
  this <- receiver ;;
  let options :=
    {| method := "PATCH";
       headers :=
         [("Content-Type", contentType this);
          ("Authorization", "Bearer " ++ token)];
       body := JSON_stringify rt (JObj user) |} in
  try_catch
    (id <- complete (ToString rt (get "id" user)) ;;
     target <- complete
       (new_URL rt
          (usersEndpoint this ++ "/" ++ id ++ "/tags")
          (Some (usersUrl this))) ;;
     response <- fetch rt (URL_toString target) options ;;
     (if negb (ok response) then
        errorRes <- await (json response) ;;
        message <- complete (GetV errorRes "message") ;;
        throw (HandleError message (status response))
      else ret tt) ;;;
     userData <- await (json response) ;;
     ret userData)
    (fun error => throw error).

Definition UpdateUserPassword (oldSecret newSecret token : string)
  : M t JsValue :=
  this <- receiver ;;
  let options :=
    {| method := "PATCH";
       headers :=
         [("Content-Type", contentType this);
          ("Authorization", "Bearer " ++ token)];
       body := JSON_stringify rt
                 (JObj
                    [("old_secret", JStr oldSecret);
                     ("new_secret", JStr newSecret)]) |} in
  try_catch
    (target <- complete
       (new_URL rt
          (usersEndpoint this ++ "/secret")
          (Some (usersUrl this))) ;;
     response <- fetch rt (URL_toString target) options ;;
     (if negb (ok response) then
        errorRes <- await (json response) ;;
        message <- complete (GetV errorRes "message") ;;
        throw (HandleError message (status response))
      else ret tt) ;;;
     userData <- await (json response) ;;
     ret userData)
    (fun error => throw error).

Definition UpdateUserRole (user : JsObject) (token : string) : M t JsValue :=
  this <- receiver ;;
  let options :=
    {| method := "PATCH";
       headers :=
         [("Content-Type", contentType this);
          ("Authorization", "Bearer " ++ token)];
       body := JSON_stringify rt (JObj user) |} in
  try_catch
    (id <- complete (ToString rt (get "id" user)) ;;
     target <- complete
       (new_URL rt
          (usersEndpoint this ++ "/" ++ id ++ "/role")
          (Some (usersUrl this))) ;;
     response <- fetch rt (URL_toString target) options ;;
     (if negb (ok response) then
        errorRes <- await (json response) ;;
        message <- complete (GetV errorRes "message") ;;
        throw (HandleError message (status response))
      else ret tt) ;;;
     userData <- await (json response) ;;
     ret userData)
    (fun error => throw error).

Definition User (userId token : string) : M t JsValue :=
  this <- receiver ;;
  let options :=
    {| method := "GET";
       headers :=
         [("Content-Type", contentType this);
          ("Authorization", "Bearer " ++ token)];
       body := None |} in
  try_catch
    (target <- complete
       (new_URL rt
          (usersEndpoint this ++ "/" ++ userId)
          (Some (usersUrl this))) ;;
     response <- fetch rt (URL_toString target) options ;;
     (if negb (ok response) then
        errorRes <- await (json response) ;;
        message <- complete (GetV errorRes "message") ;;
        throw (HandleError message (status response))
      else ret tt) ;;;
     userData <- await (json response) ;;
     ret userData)
    (fun error => throw error).

Definition UserProfile (token : string) : M t JsValue :=
  this <- receiver ;;
  let options :=
    {| method := "GET";
       headers :=
         [("Content-Type", contentType this);
          ("Authorization", "Bearer " ++ token)];
       body := None |} in
  try_catch
    (target <- complete
       (new_URL rt
          (usersEndpoint this ++ "/profile")
          (Some (usersUrl this))) ;;
     response <- fetch rt (URL_toString target) options ;;
     (if negb (ok response) then
        errorRes <- await (json response) ;;
        message <- complete (GetV errorRes "message") ;;
        throw (HandleError message (status response))
      else ret tt) ;;;
     userData <- await (json response) ;;
     ret userData)
    (fun error => throw error).

Definition Users (queryParams : JsObject) (token : string) : M t JsValue :=
  this <- receiver ;;
  stringParams <- complete
    (and_then
       (Array_map
          (fun '(key, value) =>
             and_then (ToString rt value) (fun text =>
             Return (key, text)))
          (Object_entries queryParams))
       (fun entries => Return (Object_fromEntries entries))) ;;
  let options :=
    {| method := "GET";
       headers :=
         [("Content-Type", contentType this);
          ("Authorization", "Bearer " ++ token)];
       body := None |} in
  try_catch
    (target <- complete
       (new_URL rt
          (usersEndpoint this ++ "?" ++ URLSearchParams_toString stringParams)
          (Some (usersUrl this))) ;;
     response <- fetch rt (URL_toString target) options ;;
     (if negb (ok response) then
        errorRes <- await (json response) ;;
        message <- complete (GetV errorRes "message") ;;
        throw (HandleError message (status response))
      else ret tt) ;;;
     usersData <- await (json response) ;;
     ret usersData)
    (fun error => throw error).

Definition Disable (user : JsObject) (token : string) : M t JsValue :=
  this <- receiver ;;
  let options :=
    {| method := "POST";
       headers :=
         [("Content-Type", contentType this);
          ("Authorization", "Bearer " ++ token)];
       body := JSON_stringify rt (JObj user) |} in
  try_catch
    (id <- complete (ToString rt (get "id" user)) ;;
     target <- complete
       (new_URL rt
          (usersEndpoint this ++ "/" ++ id ++ "/disable")
          (Some (usersUrl this))) ;;
     response <- fetch rt (URL_toString target) options ;;
     (if negb (ok response) then
        errorRes <- await (json response) ;;
        message <- complete (GetV errorRes "message") ;;
        throw (HandleError message (status response))
      else ret tt) ;;;
     userData <- await (json response) ;;
     ret userData)
    (fun error => throw error).

Definition Enable (user : JsObject) (token : string) : M t JsValue :=
  this <- receiver ;;
  let options :=
    {| method := "POST";
       headers :=
         [("Content-Type", contentType this);
          ("Authorization", "Bearer " ++ token)];
       body := JSON_stringify rt (JObj user) |} in
  try_catch
    (id <- complete (ToString rt (get "id" user)) ;;
     target <- complete
       (new_URL rt
          (usersEndpoint this ++ "/" ++ id ++ "/enable")
          (Some (usersUrl this))) ;;
     response <- fetch rt (URL_toString target) options ;;
     (if negb (ok response) then
        errorRes <- await (json response) ;;
        message <- complete (GetV errorRes "message") ;;
        throw (HandleError message (status response))
      else ret tt) ;;;
     userData <- await (json response) ;;
     ret userData)
    (fun error => throw error).

Definition ListUserGroups (domainId userId : string)
  (queryParams : JsObject) (token : string)
  : M t JsValue :=
  this <- receiver ;;
  stringParams <- complete
    (and_then
       (Array_map
          (fun '(key, value) =>
             and_then (ToString rt value) (fun text =>
             Return (key, text)))
          (Object_entries queryParams))
       (fun entries => Return (Object_fromEntries entries))) ;;
  let options :=
    {| method := "GET";
       headers :=
         [("Content-Type", contentType this);
          ("Authorization", "Bearer " ++ token)];
       body := None |} in
  try_catch
    (target <- complete
       (new_URL rt
          (domainId ++ "/" ++ usersEndpoint this ++ "/" ++ userId
             ++ "/groups?" ++ URLSearchParams_toString stringParams)
          (Some (usersUrl this))) ;;
     response <- fetch rt (URL_toString target) options ;;
     (if negb (ok response) then
        errorRes <- await (json response) ;;
        message <- complete (GetV errorRes "message") ;;
        throw (HandleError message (status response))
      else ret tt) ;;;
     groupsData <- await (json response) ;;
     ret groupsData)
    (fun error => throw error).

Definition ListUserClients (userId domainId : string)
  (queryParams : JsObject) (token : string)
  : M t JsValue :=
  this <- receiver ;;
  stringParams <- complete
    (and_then
       (Array_map
          (fun '(key, value) =>
             and_then (ToString rt value) (fun text =>
             Return (key, text)))
          (Object_entries queryParams))
       (fun entries => Return (Object_fromEntries entries))) ;;
  let options :=
    {| method := "GET";
       headers :=
         [("Content-Type", contentType this);
          ("Authorization", "Bearer " ++ token)];
       body := None |} in
  try_catch
    (target <- complete
       (new_URL rt
          (domainId ++ "/" ++ usersEndpoint this ++ "/" ++ userId
             ++ "/clients?" ++ URLSearchParams_toString stringParams)
          (clientsUrl this)) ;;
     response <- fetch rt (URL_toString target) options ;;
     (if negb (ok response) then
        errorRes <- await (json response) ;;
        message <- complete (GetV errorRes "message") ;;
        throw (HandleError message (status response))
      else ret tt) ;;;
     clientsData <- await (json response) ;;
     ret clientsData)
    (fun error => throw error).

Definition ListUserChannels (domainId userId : string)
  (queryParams : JsObject) (token : string)
  : M t JsValue :=
  this <- receiver ;;
  stringParams <- complete
    (and_then
       (Array_map
          (fun '(key, value) =>
             and_then (ToString rt value) (fun text =>
             Return (key, text)))
          (Object_entries queryParams))
       (fun entries => Return (Object_fromEntries entries))) ;;
  let options :=
    {| method := "GET";
       headers :=
         [("Content-Type", contentType this);
          ("Authorization", "Bearer " ++ token)];
       body := None |} in
  try_catch
    (target <- complete
       (new_URL rt
          (domainId ++ "/" ++ usersEndpoint this ++ "/" ++ userId
             ++ "/channels?" ++ URLSearchParams_toString stringParams)
          (clientsUrl this)) ;;
     response <- fetch rt (URL_toString target) options ;;
     (if negb (ok response) then
        errorRes <- await (json response) ;;
        message <- complete (GetV errorRes "message") ;;
        throw (HandleError message (status response))
      else ret tt) ;;;
     channelsPage <- await (json response) ;;
     ret channelsPage)
    (fun error => throw error).

Definition ResetPasswordRequest (email hostUrl : string) : M t JsValue :=
  this <- receiver ;;
  let options :=
    {| method := "POST";
       headers :=
         [("Content-Type", contentType this);
          ("Referer", hostUrl)];
       body := JSON_stringify rt (JObj [("email", JStr email)]) |} in
  try_catch
    (target <- complete
       (new_URL rt
          "/password/reset-request"
          (Some (usersUrl this))) ;;
     response <- fetch rt (URL_toString target) options ;;
     (if negb (ok response) then
        errorRes <- await (json response) ;;
        message <- complete (GetV errorRes "message") ;;
        throw (HandleError message (status response))
      else ret tt) ;;;
     let resetRequestResponse :=
       status_message (status response)
         "Email with reset link sent successfully" in
     ret resetRequestResponse)
    (fun error => throw error).

Definition ResetPassword (password confPass token : string) : M t JsValue :=
  this <- receiver ;;
  let options :=
    {| method := "PUT";
       headers := [("Content-Type", contentType this)];
       body := JSON_stringify rt
                 (JObj
                    [("token", JStr token);
                     ("password", JStr password);
                     ("confirm_password", JStr confPass)]) |} in
  try_catch
    (target <- complete
       (new_URL rt
          "/password/reset"
          (Some (usersUrl this))) ;;
     response <- fetch rt (URL_toString target) options ;;
     (if negb (ok response) then
        errorRes <- await (json response) ;;
        message <- complete (GetV errorRes "message") ;;
        throw (HandleError message (status response))
      else ret tt) ;;;
     let resetResponse :=
       status_message (status response)
         "Password reset successfully" in
     ret resetResponse)
    (fun error => throw error).

Definition DeleteUser (userId token : string) : M t JsValue :=
  this <- receiver ;;
  let options :=
    {| method := "DELETE";
       headers := [("Authorization", "Bearer " ++ token)];
       body := None |} in
  try_catch
    (target <- complete
       (new_URL rt
          (usersEndpoint this ++ "/" ++ userId)
          (Some (usersUrl this))) ;;
     response <- fetch rt (URL_toString target) options ;;
     (if negb (ok response) then
        errorRes <- await (json response) ;;
        message <- complete (GetV errorRes "message") ;;
        throw (HandleError message (status response))
      else ret tt) ;;;
     let deleteResponse :=
       status_message (status response)
         "User deleted successfully" in
     ret deleteResponse)
    (fun error => throw error).

Definition SearchUsers (queryParams : JsObject) (token : string)
  : M t JsValue :=
  this <- receiver ;;
  stringParams <- complete
    (and_then
       (Array_map
          (fun '(key, value) =>
             and_then (ToString rt value) (fun text =>
             Return (key, text)))
          (Object_entries queryParams))
       (fun entries => Return (Object_fromEntries entries))) ;;
  let options :=
    {| method := "GET";
       headers :=
         [("Content-Type", contentType this);
          ("Authorization", "Bearer " ++ token)];
       body := None |} in
  try_catch
    (target <- complete
       (new_URL rt
          (usersEndpoint this ++ "/" ++ searchEndpoint this ++ "?"
             ++ URLSearchParams_toString stringParams)
          (Some (usersUrl this))) ;;
     response <- fetch rt (URL_toString target) options ;;
     (if negb (ok response) then
        errorRes <- await (json response) ;;
        message <- complete (GetV errorRes "message") ;;
        throw (HandleError message (status response))
      else ret tt) ;;;
     usersData <- await (json response) ;;
     ret usersData)
    (fun error => throw error).

End Methods.

(** One call of a public request method, with its arguments. *)
Inductive Call : Type :=
| call_Create (user : JsObject) (token : option string)
| call_CreateToken (login : JsObject)
| call_RefreshToken (refreshToken : string)
| call_Update (user : JsObject) (token : string)
| call_UpdateEmail (user : JsObject) (token : string)
| call_UpdateUsername (user : JsObject) (token : string)
| call_UpdateProfilePicture (user : JsObject) (token : string)
| call_UpdateUserTags (user : JsObject) (token : string)
| call_UpdateUserPassword (oldSecret newSecret token : string)
| call_UpdateUserRole (user : JsObject) (token : string)
| call_User (userId token : string)
| call_UserProfile (token : string)
| call_Users (queryParams : JsObject) (token : string)
| call_Disable (user : JsObject) (token : string)
| call_Enable (user : JsObject) (token : string)
| call_ListUserGroups (domainId userId : string) (queryParams : JsObject)
    (token : string)
| call_ListUserClients (userId domainId : string) (queryParams : JsObject)
    (token : string)
| call_ListUserChannels (domainId userId : string)
    (queryParams : JsObject) (token : string)
| call_ResetPasswordRequest (email hostUrl : string)
| call_ResetPassword (password confPass token : string)
| call_DeleteUser (userId token : string)
| call_SearchUsers (queryParams : JsObject) (token : string).

Definition invoke (rt : Runtime) (HandleError : JsValue -> Z -> JsValue)
  (c : Call) : M t JsValue :=
  match c with
  | call_Create user token => Create rt HandleError user token
  | call_CreateToken login => CreateToken rt HandleError login
  | call_RefreshToken refreshToken =>
      RefreshToken rt HandleError refreshToken
  | call_Update user token => Update rt HandleError user token
  | call_UpdateEmail user token => UpdateEmail rt HandleError user token
  | call_UpdateUsername user token =>
      UpdateUsername rt HandleError user token
  | call_UpdateProfilePicture user token =>
      UpdateProfilePicture rt HandleError user token
  | call_UpdateUserTags user token =>
      UpdateUserTags rt HandleError user token
  | call_UpdateUserPassword oldSecret newSecret token =>
      UpdateUserPassword rt HandleError oldSecret newSecret token
  | call_UpdateUserRole user token =>
      UpdateUserRole rt HandleError user token
  | call_User userId token => User rt HandleError userId token
  | call_UserProfile token => UserProfile rt HandleError token
  | call_Users queryParams token => Users rt HandleError queryParams token
  | call_Disable user token => Disable rt HandleError user token
  | call_Enable user token => Enable rt HandleError user token
  | call_ListUserGroups domainId userId queryParams token =>
      ListUserGroups rt HandleError domainId userId queryParams token
  | call_ListUserClients userId domainId queryParams token =>
      ListUserClients rt HandleError userId domainId queryParams token
  | call_ListUserChannels domainId userId queryParams token =>
      ListUserChannels rt HandleError domainId userId queryParams token
  | call_ResetPasswordRequest email hostUrl =>
      ResetPasswordRequest rt HandleError email hostUrl
  | call_ResetPassword password confPass token =>
      ResetPassword rt HandleError password confPass token
  | call_DeleteUser userId token => DeleteUser rt HandleError userId token
  | call_SearchUsers queryParams token =>
      SearchUsers rt HandleError queryParams token
  end.

End Users.

(* ================================================================== *)
(** ** class Journal (src/journal.ts) *)
(* ================================================================== *)

Module Journal.

Record t : Type := {
  journalsUrl : URL;
  journalsEndpoint : string;
  contentType : string
}.

Section Methods.

Variable rt : Runtime.
Variable HandleError : JsValue -> Z -> JsValue.

Definition constructor (journals_url : string) : Completion t :=
  and_then (new_URL rt journals_url None) (fun journals =>
  Return {| journalsUrl := journals;
            contentType := "application/json";
            journalsEndpoint := "journal" |}).

Definition Journal (entityType entityId domainId : string)
  (queryParams : JsObject) (token : string)
  : M t JsValue :=
  this <- receiver ;;
  stringParams <- complete
    (and_then
       (Array_map
          (fun '(key, value) =>
             and_then (ToString rt value) (fun text =>
             Return (key, text)))
          (Object_entries queryParams))
       (fun entries => Return (Object_fromEntries entries))) ;;
  let options :=
    {| method := "GET";
       headers :=
         [("Content-Type", contentType this);
          ("Authorization", "Bearer " ++ token)];
       body := None |} in
  try_catch
    (target <- complete
       (new_URL rt
          (domainId ++ "/" ++ journalsEndpoint this ++ "/" ++ entityType
             ++ "/" ++ entityId ++ "?" ++ URLSearchParams_toString stringParams)
          (Some (journalsUrl this))) ;;
     response <- fetch rt (URL_toString target) options ;;
     (if negb (ok response) then
        errorRes <- await (json response) ;;
        message <- complete (GetV errorRes "message") ;;
        throw (HandleError message (status response))
      else ret tt) ;;;
     journalsPage <- await (json response) ;;
     ret journalsPage)
    (fun error => throw error).

End Methods.

Inductive Call : Type :=
| call_Journal (entityType entityId domainId : string)
    (queryParams : JsObject) (token : string).

Definition invoke (rt : Runtime) (HandleError : JsValue -> Z -> JsValue)
  (c : Call) : M t JsValue :=
  match c with
  | call_Journal entityType entityId domainId queryParams token =>
      Journal rt HandleError entityType entityId domainId queryParams
        token
  end.

End Journal.

(* ================================================================== *)
(** ** Both clients at once *)
(* ================================================================== *)

Inductive Client : Type := UsersClient | JournalClient.

Definition This (k : Client) : Type :=
  match k with
  | UsersClient => Users.t
  | JournalClient => Journal.t
  end.

Definition Call (k : Client) : Type :=
  match k with
  | UsersClient => Users.Call
  | JournalClient => Journal.Call
  end.

Definition invoke (rt : Runtime) (HandleError : JsValue -> Z -> JsValue)
  {k : Client} : Call k -> M (This k) JsValue :=
  match k with
  | UsersClient => Users.invoke rt HandleError
  | JournalClient => Journal.invoke rt HandleError
  end.

(** Running a method on a receiver, after the given calls of [fetch]. *)
Definition run {T A} (m : M T A) (this : T) (before : list Request)
  : Completion A * Store T :=
  m {| self := this; fetched := before |}.

(** What the method completes with. *)
Definition outcome {T A} (m : M T A) (this : T) (before : list Request)
  : Completion A :=
  fst (run m this before).

(** The calls of [fetch] once the method has completed. *)
Definition trace {T A} (m : M T A) (this : T) (before : list Request)
  : list Request :=
  fetched (snd (run m this before)).

(** The receiver once the method has completed. *)
Definition receiver_after {T A} (m : M T A) (this : T)
  (before : list Request) : T :=
  self (snd (run m this before)).

(* ================================================================== *)
(** ** The request of each call, read off the method bodies *)
(* ================================================================== *)

(** The query string of a listing method. *)
Definition query_of (rt : Runtime) (queryParams : JsObject)
  : Completion string :=
  and_then (string_params rt queryParams) (fun stringParams =>
  Return (URLSearchParams_toString stringParams)).

(** The first argument of [new URL]: the resource path and, for the
    listing methods, the query string.  It takes a conversion to a
    string, which may throw, where the method splices [user.id] or
    builds [stringParams]. *)
Definition Users_reference (rt : Runtime) (this : Users.t) (c : Users.Call)
  : Completion string :=
  let users := Users.usersEndpoint this in
  let of_user (user : JsObject) (rest : string) :=
    and_then (ToString rt (get "id" user)) (fun id =>
    Return (users ++ "/" ++ id ++ rest)) in
  let listed (frame : string -> string) (queryParams : JsObject) :=
    and_then (string_params rt queryParams) (fun stringParams =>
    Return (frame (URLSearchParams_toString stringParams))) in
  match c with
  | Users.call_Create _ _ => Return users
  | Users.call_CreateToken _ => Return (users ++ "/tokens/issue")
  | Users.call_RefreshToken _ => Return (users ++ "/tokens/refresh")
  | Users.call_Update user _ =>
      and_then (ToString rt (get "id" user)) (fun id =>
      Return (users ++ "/" ++ id))
  | Users.call_UpdateEmail user _ => of_user user "/email"
  | Users.call_UpdateUsername user _ => of_user user "/username"
  | Users.call_UpdateProfilePicture user _ => of_user user "/picture"
  | Users.call_UpdateUserTags user _ => of_user user "/tags"
  | Users.call_UpdateUserPassword _ _ _ => Return (users ++ "/secret")
  | Users.call_UpdateUserRole user _ => of_user user "/role"
  | Users.call_User userId _ => Return (users ++ "/" ++ userId)
  | Users.call_UserProfile _ => Return (users ++ "/profile")
  | Users.call_Users queryParams _ =>
      listed (fun query => users ++ "?" ++ query) queryParams
  | Users.call_Disable user _ => of_user user "/disable"
  | Users.call_Enable user _ => of_user user "/enable"
  | Users.call_ListUserGroups domainId userId queryParams _ =>
      listed
        (fun query =>
           domainId ++ "/" ++ users ++ "/" ++ userId ++ "/groups?" ++ query)
        queryParams
  | Users.call_ListUserClients userId domainId queryParams _ =>
      listed
        (fun query =>
           domainId ++ "/" ++ users ++ "/" ++ userId ++ "/clients?" ++ query)
        queryParams
  | Users.call_ListUserChannels domainId userId queryParams _ =>
      listed
        (fun query =>
           domainId ++ "/" ++ users ++ "/" ++ userId ++ "/channels?" ++ query)
        queryParams
  | Users.call_ResetPasswordRequest _ _ => Return "/password/reset-request"
  | Users.call_ResetPassword _ _ _ => Return "/password/reset"
  | Users.call_DeleteUser userId _ => Return (users ++ "/" ++ userId)
  | Users.call_SearchUsers queryParams _ =>
      listed
        (fun query =>
           users ++ "/" ++ Users.searchEndpoint this ++ "?" ++ query)
        queryParams
  end.

(** The second argument of [new URL]. *)
Definition Users_base (this : Users.t) (c : Users.Call) : option URL :=
  match c with
  | Users.call_ListUserClients _ _ _ _
  | Users.call_ListUserChannels _ _ _ _ => Users.clientsUrl this
  | _ => Some (Users.usersUrl this)
  end.

(** The credential a call authenticates with, if it does. *)
Definition Users_bearer (c : Users.Call) : option string :=
  match c with
  | Users.call_Create _ token => Some (interpolate token)
  | Users.call_CreateToken _ => None
  | Users.call_RefreshToken refreshToken => Some refreshToken
  | Users.call_Update _ token
  | Users.call_UpdateEmail _ token
  | Users.call_UpdateUsername _ token
  | Users.call_UpdateProfilePicture _ token
  | Users.call_UpdateUserTags _ token
  | Users.call_UpdateUserPassword _ _ token
  | Users.call_UpdateUserRole _ token
  | Users.call_User _ token
  | Users.call_UserProfile token
  | Users.call_Users _ token
  | Users.call_Disable _ token
  | Users.call_Enable _ token
  | Users.call_ListUserGroups _ _ _ token
  | Users.call_ListUserClients _ _ _ token
  | Users.call_ListUserChannels _ _ _ token
  | Users.call_DeleteUser _ token
  | Users.call_SearchUsers _ token => Some token
  | Users.call_ResetPasswordRequest _ _ => None
  | Users.call_ResetPassword _ _ _ => None
  end.

Definition Users_verb (c : Users.Call) : string :=
  match c with
  | Users.call_Create _ _ | Users.call_CreateToken _
  | Users.call_RefreshToken _ | Users.call_Disable _ _
  | Users.call_Enable _ _ | Users.call_ResetPasswordRequest _ _ => "POST"
  | Users.call_Update _ _ | Users.call_UpdateEmail _ _
  | Users.call_UpdateUsername _ _ | Users.call_UpdateProfilePicture _ _
  | Users.call_UpdateUserTags _ _ | Users.call_UpdateUserPassword _ _ _
  | Users.call_UpdateUserRole _ _ => "PATCH"
  | Users.call_User _ _ | Users.call_UserProfile _ | Users.call_Users _ _
  | Users.call_ListUserGroups _ _ _ _ | Users.call_ListUserClients _ _ _ _
  | Users.call_ListUserChannels _ _ _ _ | Users.call_SearchUsers _ _ =>
      "GET"
  | Users.call_ResetPassword _ _ _ => "PUT"
  | Users.call_DeleteUser _ _ => "DELETE"
  end.

Definition Users_headers (this : Users.t) (c : Users.Call)
  : list (string * string) :=
  let content := ("Content-Type", Users.contentType this) in
  match c with
  | Users.call_ResetPasswordRequest _ hostUrl =>
      [content; ("Referer", hostUrl)]
  | Users.call_DeleteUser _ token => [("Authorization", "Bearer " ++ token)]
  | _ =>
      match Users_bearer c with
      | Some token => [content; ("Authorization", "Bearer " ++ token)]
      | None => [content]
      end
  end.

Definition Users_body (rt : Runtime) (c : Users.Call) : option string :=
  match c with
  | Users.call_Create user _ | Users.call_CreateToken user
  | Users.call_Update user _ | Users.call_UpdateUserTags user _
  | Users.call_UpdateUserRole user _ | Users.call_Disable user _
  | Users.call_Enable user _ => JSON_stringify rt (JObj user)
  | Users.call_UpdateEmail user _ =>
      JSON_stringify rt (JObj [("email", get "email" user)])
  | Users.call_UpdateUsername user _ =>
      JSON_stringify rt
        (JObj
           [("username",
             optional_chain (get "credentials" user) "username")])
  | Users.call_UpdateProfilePicture user _ =>
      JSON_stringify rt
        (JObj [("profile_picture", get "profile_picture" user)])
  | Users.call_UpdateUserPassword oldSecret newSecret _ =>
      JSON_stringify rt
        (JObj
           [("old_secret", JStr oldSecret); ("new_secret", JStr newSecret)])
  | Users.call_ResetPasswordRequest email _ =>
      JSON_stringify rt (JObj [("email", JStr email)])
  | Users.call_ResetPassword password confPass token =>
      JSON_stringify rt
        (JObj
           [("token", JStr token); ("password", JStr password);
            ("confirm_password", JStr confPass)])
  | _ => None
  end.

(** The message of the [Response] a method builds itself instead of
    reading the body. *)
Definition Users_fixed_message (c : Users.Call) : option string :=
  match c with
  | Users.call_ResetPasswordRequest _ _ =>
      Some "Email with reset link sent successfully"
  | Users.call_ResetPassword _ _ _ => Some "Password reset successfully"
  | Users.call_DeleteUser _ _ => Some "User deleted successfully"
  | _ => None
  end.

Definition reference (rt : Runtime) {k : Client}
  : This k -> Call k -> Completion string :=
  match k with
  | UsersClient => Users_reference rt
  | JournalClient => fun this c =>
      match c with
      | Journal.call_Journal entityType entityId domainId queryParams _ =>
          and_then (string_params rt queryParams) (fun stringParams =>
          Return
            (domainId ++ "/" ++ Journal.journalsEndpoint this ++ "/"
               ++ entityType ++ "/" ++ entityId ++ "?"
               ++ URLSearchParams_toString stringParams))
      end
  end.

Definition base {k : Client} : This k -> Call k -> option URL :=
  match k with
  | UsersClient => Users_base
  | JournalClient => fun this _ => Some (Journal.journalsUrl this)
  end.

Definition bearer {k : Client} : Call k -> option string :=
  match k with
  | UsersClient => Users_bearer
  | JournalClient => fun c =>
      match c with
      | Journal.call_Journal _ _ _ _ token => Some token
      end
  end.

Definition options (rt : Runtime) {k : Client}
  : This k -> Call k -> RequestInit :=
  match k with
  | UsersClient => fun this c =>
      {| method := Users_verb c;
         headers := Users_headers this c;
         body := Users_body rt c |}
  | JournalClient => fun this c =>
      match c with
      | Journal.call_Journal _ _ _ _ token =>
          {| method := "GET";
             headers :=
               [("Content-Type", Journal.contentType this);
                ("Authorization", "Bearer " ++ token)];
             body := None |}
      end
  end.

Definition fixed_message {k : Client} : Call k -> option string :=
  match k with
  | UsersClient => Users_fixed_message
  | JournalClient => fun _ => None
  end.

(** The request a call sends, when its URL can be built. *)
Definition plan (rt : Runtime) {k : Client} (this : This k) (c : Call k)
  : Completion Request :=
  and_then (reference rt this c) (fun input =>
  and_then (new_URL rt input (base this c)) (fun target =>
  Return {| url := URL_toString target; init := options rt this c |})).

(** What a method makes of the response it received. *)
Definition conclude (HandleError : JsValue -> Z -> JsValue)
  (fixed : option string) (response : Response) : Completion JsValue :=
  if ok response then
    match fixed with
    | Some message => Return (status_message (status response) message)
    | None =>
        match json response with
        | Resolved data => Return data
        | Rejected e => Throw e
        end
    end
  else
    match json response with
    | Resolved errorRes =>
        and_then (GetV errorRes "message") (fun message =>
        Throw (HandleError message (status response)))
    | Rejected e => Throw e
    end.

(** One exchange: build the request, fetch once, conclude. *)
Definition exchange (rt : Runtime) (HandleError : JsValue -> Z -> JsValue)
  {T} (planned : Completion Request) (fixed : option string)
  (s : Store T) : Completion JsValue * Store T :=
  match planned with
  | Throw e => (Throw e, s)
  | Return request =>
      let s' :=
        {| self := self s; fetched := (fetched s ++ [request])%list |} in
      match network rt (fetched s) request with
      | Rejected e => (Throw e, s')
      | Resolved response => (conclude HandleError fixed response, s')
      end
  end.

(* ================================================================== *)
(** ** A runtime to evaluate the clients on *)
(* ================================================================== *)

(** The decimal digits of a natural number. *)
Definition decimal (n : Z) : string :=
  NilZero.string_of_int (Z.to_int (Z.abs n)).

(** [Number.prototype.toString] (radix 10) on the Number nearest to an
    integer, as ECMA-262 has it in Number::toString: the shortest digits
    that read back as the same Number, written in full below 10^21 and
    in exponent form from there on. *)
Module Number.

(** The Number (a binary64 value) nearest to a positive integer, ties to
    even; [None] is [Infinity]. *)
Definition nearest (m : Z) : option Z :=
  let bits := (Z.log2 m + 1)%Z in
  if (bits <=? 53)%Z then Some m
  else
    let shift := (bits - 53)%Z in
    let q := Z.shiftr m shift in
    let r := (m - Z.shiftl q shift)%Z in
    let half := Z.shiftl 1 (shift - 1) in
    let q' :=
      if (half <? r)%Z || ((r =? half)%Z && Z.odd q) then (q + 1)%Z
      else q in
    let v := Z.shiftl q' shift in
    if (Z.shiftl 1 1024 <=? v)%Z then None else Some v.

(** The shortest decimal digits [s], at most 17 of them, such that [s]
    followed by zeros up to [n] digits is nearest to [x], as
    [(s, n)]; among two candidates of one length, the one closer to
    [x]. *)
Fixpoint shortest (fuel : nat) (k : Z) (x : Z) (len : Z) : Z * Z :=
  match fuel with
  | O => (x, len)
  | S fuel' =>
      let scale := (10 ^ (len - k))%Z in
      let lo := (x / scale)%Z in
      let hi := (lo + 1)%Z in
      let reads c :=
        match nearest (c * scale) with
        | Some y => (y =? x)%Z
        | None => false
        end in
      let below := reads lo in
      let above := reads hi in
      let pick_hi :=
        if (hi =? 10 ^ k)%Z then (1%Z, (len + 1)%Z) else (hi, len) in
      if (len <=? k)%Z then (x, len)
      else if below && above then
        if (x - lo * scale <=? hi * scale - x)%Z then (lo, len)
        else pick_hi
      else if below then (lo, len)
      else if above then pick_hi
      else shortest fuel' (k + 1)%Z x len
  end.

Fixpoint strip_zeros (fuel : nat) (s : Z) : Z :=
  match fuel with
  | O => s
  | S fuel' =>
      if (s =? 0)%Z then s
      else if (s mod 10 =? 0)%Z then strip_zeros fuel' (s / 10)%Z
      else s
  end.

Fixpoint zeros (n : nat) : string :=
  match n with
  | O => ""
  | S n' => String "0" (zeros n')
  end.

Definition of_positive (m : Z) : string :=
  match nearest m with
  | None => "Infinity"
  | Some x =>
      let len := Z.of_nat (String.length (decimal x)) in
      let (s0, n) := shortest 17 1 x len in
      let s := strip_zeros 400 s0 in
      let digits := decimal s in
      let k := Z.of_nat (String.length digits) in
      if (n <=? 21)%Z then digits ++ zeros (Z.to_nat (n - k))
      else
        match digits with
        | String d EmptyString => String d ("e+" ++ decimal (n - 1))
        | String d more =>
            String d ("." ++ more ++ "e+" ++ decimal (n - 1))
        | EmptyString => ""
        end
  end.

Definition toString (n : Z) : string :=
  if (n =? 0)%Z then "0"
  else if (n <? 0)%Z then "-" ++ of_positive (- n)
  else of_positive n.

End Number.

(** The URL parser of the WHATWG URL Standard on a part of its inputs:
    [http] and [https] URLs written as
    [scheme://host[:port][/path][?query][#fragment]] and the references
    relative to them, made of printable ASCII bytes that the parser
    copies as they are (no percent-encoding or decoding, no backslash).
    A host is a domain of letters, digits, [-], [_] and [.], or an IPv4
    address in dotted decimal.  On an input of this part the verdict is
    the standard's: the URL it produces, or a failure.  Every other
    input (user names, IPv6 addresses, internationalised or
    percent-encoded hosts, other schemes, bytes the standard would
    encode or strip) is [Beyond]. *)
Module WHATWG.

Inductive Verdict (A : Type) : Type :=
| Accepted (a : A)
| Failure
| Beyond.
Arguments Accepted {A} a.
Arguments Failure {A}.
Arguments Beyond {A}.

Definition next {A B} (v : Verdict A) (k : A -> Verdict B) : Verdict B :=
  match v with
  | Accepted a => k a
  | Failure => Failure
  | Beyond => Beyond
  end.

Fixpoint all (p : ascii -> bool) (s : string) : bool :=
  match s with
  | EmptyString => true
  | String c rest => p c && all p rest
  end.

Definition any (p : ascii -> bool) (s : string) : bool :=
  negb (all (fun c => negb (p c)) s).

(** The longest prefix free of [p], and what follows it. *)
Fixpoint break (p : ascii -> bool) (s : string) : string * string :=
  match s with
  | EmptyString => (EmptyString, EmptyString)
  | String c rest =>
      if p c then (EmptyString, s)
      else let (before, after) := break p rest in (String c before, after)
  end.

Definition byte_is (c : ascii) : ascii -> bool := Ascii.eqb c.

Definition one_of (set : string) (c : ascii) : bool :=
  any (Ascii.eqb c) set.

Definition tail (s : string) : string :=
  match s with
  | EmptyString => EmptyString
  | String _ rest => rest
  end.

Definition lower (c : ascii) : ascii :=
  if in_range "A" "Z" c then ascii_of_nat (nat_of_ascii c + 32) else c.

Fixpoint lowercase (s : string) : string :=
  match s with
  | EmptyString => EmptyString
  | String c rest => String (lower c) (lowercase rest)
  end.

(** The pieces between the separators; at least one piece. *)
Fixpoint split (separator : ascii) (s : string) : list string :=
  match s with
  | EmptyString => [EmptyString]
  | String c rest =>
      if Ascii.eqb c separator then EmptyString :: split separator rest
      else
        match split separator rest with
        | piece :: others => String c piece :: others
        | [] => [String c EmptyString]
        end
  end.

Record Parts : Type := {
  scheme : string;
  hostname : string;
  port : option N;
  path : list string;
  query : option string;
  fragment : option string
}.

Definition default_port (scheme : string) : N :=
  if String.eqb scheme "https" then 443%N else 80%N.

Definition serialize_host (u : Parts) : string :=
  match port u with
  | Some n => hostname u ++ ":" ++ decimal (Z.of_N n)
  | None => hostname u
  end.

Fixpoint serialize_path (segments : list string) : string :=
  match segments with
  | [] => ""
  | segment :: rest => "/" ++ segment ++ serialize_path rest
  end.

(** The URL serializer, and the [host] and [search] getters. *)
Definition serialize (u : Parts) : URL :=
  {| href :=
       scheme u ++ "://" ++ serialize_host u ++ serialize_path (path u)
         ++ match query u with
            | Some q => "?" ++ q
            | None => ""
            end
         ++ match fragment u with
            | Some f => "#" ++ f
            | None => ""
            end;
     host := serialize_host u;
     search :=
       match query u with
       | Some (String c q) => String "?" (String c q)
       | _ => ""
       end |}.

Definition quote_mark : ascii := ascii_of_nat 34.

Definition printable (c : ascii) : bool := in_range "!" "~" c.

(** Printable bytes outside the path percent-encode set; the percent
    sign and the backslash are left out as well. *)
Definition path_byte (c : ascii) : bool :=
  printable c
  && negb (Ascii.eqb c quote_mark || one_of "#<>?^`{}\%" c).

(** Printable bytes outside the special-query percent-encode set. *)
Definition query_byte (c : ascii) : bool :=
  printable c && negb (Ascii.eqb c quote_mark || one_of "#<>'" c).

(** Printable bytes outside the fragment percent-encode set. *)
Definition fragment_byte (c : ascii) : bool :=
  printable c && negb (Ascii.eqb c quote_mark || one_of "<>`" c).

Definition host_byte (c : ascii) : bool :=
  in_range "a" "z" c || is_digit c || one_of "-._" c.

Definition is_hex (c : ascii) : bool :=
  is_digit c || in_range "a" "f" c || in_range "A" "F" c.

Fixpoint digits_value (s : string) (acc : N) : N :=
  match s with
  | EmptyString => acc
  | String c rest =>
      digits_value rest (10 * acc + (N_of_ascii c - 48))%N
  end.

(** The ends-in-a-number checker of the host parser. *)
Definition ends_in_number (h : string) : bool :=
  let labels := rev (split "." h) in
  let final :=
    match labels with
    | EmptyString :: previous :: _ => previous
    | final :: _ => final
    | [] => EmptyString
    end in
  match final with
  | EmptyString => false
  | String "0" (String "x" digits) => all is_hex digits
  | _ => all is_digit final
  end.

Definition canonical_octet (label : string) : bool :=
  all is_digit label
  && match label with
     | EmptyString => false
     | String "0" (String _ _) => false
     | _ => (String.length label <=? 3)%nat
     end
  && (digits_value label 0 <=? 255)%N.

(** An IPv4 address already written the way the serializer writes it. *)
Definition canonical_ipv4 (h : string) : bool :=
  let labels := split "." h in
  (length labels =? 4)%nat && forallb canonical_octet labels.

Definition punycode_label (label : string) : bool :=
  String.prefix "xn--" label.

(** The host parser, on ASCII domains and dotted-decimal addresses. *)
Definition parse_host (name : string) : Verdict string :=
  let h := lowercase name in
  match h with
  | EmptyString => Failure
  | _ =>
      if any (one_of "<>^|") h then Failure
      else if negb (all host_byte h) then Beyond
      else if existsb punycode_label (split "." h) then Beyond
      else if ends_in_number h then
        if canonical_ipv4 h then Accepted h else Beyond
      else Accepted h
  end.

(** The port state: digits only, at most 65535; the scheme's default
    port is not kept. *)
Definition parse_port (scheme digits : string) : Verdict (option N) :=
  if all is_digit digits then
    match digits with
    | EmptyString => Accepted None
    | _ =>
        let n := digits_value digits 0%N in
        if (65535 <? n)%N then Failure
        else if (n =? default_port scheme)%N then Accepted None
        else Accepted (Some n)
    end
  else Failure.

(** The path state on the segments of a path: a [..] drops the segment
    before it, a [.] is skipped, and either one in last place leaves an
    empty segment. *)
Fixpoint resolve (stack : list string) (segments : list string)
  : list string :=
  match segments with
  | [] => stack
  | segment :: rest =>
      let last := match rest with [] => true | _ :: _ => false end in
      if String.eqb segment ".." then
        resolve
          (if last then (removelast stack ++ [""])%list
           else removelast stack) rest
      else if String.eqb segment "." then
        resolve (if last then (stack ++ [""])%list else stack) rest
      else resolve (stack ++ [segment])%list rest
  end.

Fixpoint skip_slashes (s : string) : string :=
  match s with
  | String "/" rest => skip_slashes rest
  | _ => s
  end.

(** Authority and path of a special URL, after the slashes. *)
Definition parse_authority (scheme after : string) : Verdict Parts :=
  let (authority, rest) := break (byte_is "/") after in
  if any (one_of "@[]") authority then Beyond
  else
    let (name, colon_port) := break (byte_is ":") authority in
    next (parse_host name) (fun h =>
    next (parse_port scheme (tail colon_port)) (fun p =>
    if all path_byte rest then
      Accepted
        {| scheme := scheme;
           hostname := h;
           port := p;
           path := resolve [] (split "/" (tail rest));
           query := None;
           fragment := None |}
    else Beyond)).

Definition scheme_byte (c : ascii) : bool :=
  is_alnum c || one_of "+-." c.

(** The scheme of an input that starts with one, and what follows the
    colon. *)
Definition split_scheme (input : string) : option (string * string) :=
  match input with
  | EmptyString => None
  | String c _ =>
      if is_alpha c then
        let (name, rest) := break (fun c => negb (scheme_byte c)) input in
        match rest with
        | String ":" after => Some (name, after)
        | _ => None
        end
      else None
  end.

(** Everything before the query and the fragment. *)
Definition parse_front (front : string) (base : option Parts)
  : Verdict Parts :=
  match split_scheme front with
  | Some (name, after) =>
      let scheme := lowercase name in
      if String.eqb scheme "http" || String.eqb scheme "https" then
        match after with
        | String "/" (String "/" more) =>
            parse_authority scheme (skip_slashes more)
        | _ => Beyond
        end
      else Beyond
  | None =>
      match base with
      | None => Failure
      | Some b =>
          match front with
          | EmptyString =>
              Accepted
                {| scheme := scheme b; hostname := hostname b;
                   port := port b; path := path b; query := query b;
                   fragment := None |}
          | String "/" (String "/" more) =>
              parse_authority (scheme b) (skip_slashes more)
          | String "/" rest =>
              if all path_byte rest then
                Accepted
                  {| scheme := scheme b; hostname := hostname b;
                     port := port b;
                     path := resolve [] (split "/" rest);
                     query := None; fragment := None |}
              else Beyond
          | _ =>
              if all path_byte front then
                Accepted
                  {| scheme := scheme b; hostname := hostname b;
                     port := port b;
                     path :=
                       resolve (removelast (path b)) (split "/" front);
                     query := None; fragment := None |}
              else Beyond
          end
      end
  end.

(** The basic URL parser: the fragment is what follows the first [#],
    the query what follows the first [?] before it. *)
Definition analyse (input : string) (base : option Parts) : Verdict Parts :=
  if all (fun c => printable c && negb (byte_is "\" c)) input then
    let (main, hash) := break (byte_is "#") input in
    let (front, mark) := break (byte_is "?") main in
    next (parse_front front base) (fun parts =>
    let q :=
      match mark with
      | String _ text => Some text
      | EmptyString => query parts
      end in
    let f :=
      match hash with
      | String _ text => Some text
      | EmptyString => None
      end in
    if all query_byte (match q with Some text => text | None => "" end)
       && all fragment_byte (match f with Some text => text | None => "" end)
    then
      Accepted
        {| scheme := scheme parts; hostname := hostname parts;
           port := port parts; path := path parts; query := q;
           fragment := f |}
    else Beyond)
  else Beyond.

(** What the standard makes of [new URL(input, base)], where this
    model covers the input. *)
Definition verdict (input : string) (base : option URL) : Verdict URL :=
  match base with
  | None =>
      next (analyse input None) (fun parts => Accepted (serialize parts))
  | Some b =>
      match analyse (href b) None with
      | Accepted from =>
          next (analyse input (Some from)) (fun parts =>
          Accepted (serialize parts))
      | _ => Beyond
      end
  end.

(** [new URL(input, base)], turning down what is beyond the model. *)
Definition parse (input : string) (base : option URL) : option URL :=
  match verdict input base with
  | Accepted u => Some u
  | Failure => None
  | Beyond => None
  end.

End WHATWG.

(** [JSON.stringify] on the values of [JsValue]. *)
Module JSON.

Definition quote_mark : ascii := ascii_of_nat 34.

Definition escape (c : ascii) : string :=
  let n := nat_of_ascii c in
  if Ascii.eqb c quote_mark then String "\" (String quote_mark "")
  else if Ascii.eqb c "\" then "\\"
  else if (n =? 8)%nat then "\b"
  else if (n =? 9)%nat then "\t"
  else if (n =? 10)%nat then "\n"
  else if (n =? 12)%nat then "\f"
  else if (n =? 13)%nat then "\r"
  else if (n <? 32)%nat then
    "\u00"
      ++ String (if (n <? 16)%nat then "0" else "1")
           (String
              (let d := (n mod 16)%nat in
               if (d <? 10)%nat then ascii_of_nat (48 + d)
               else ascii_of_nat (87 + d)) "")
  else String c "".

Fixpoint escape_all (s : string) : string :=
  match s with
  | EmptyString => EmptyString
  | String c rest => escape c ++ escape_all rest
  end.

Definition quote (s : string) : string :=
  String quote_mark (escape_all s ++ String quote_mark "").

Fixpoint stringify (v : JsValue) : option string :=
  match v with
  | JUndefined => None
  | JNull => Some "null"
  | JBool true => Some "true"
  | JBool false => Some "false"
  | JNum n =>
      let text := Number.toString n in
      if String.eqb text "Infinity" || String.eqb text "-Infinity" then
        Some "null"
      else Some text
  | JStr s => Some (quote s)
  | JArr items =>
      Some
        ("["
           ++ String.concat ","
                ((fix elements (l : list JsValue) : list string :=
                    match l with
                    | [] => []
                    | x :: rest =>
                        match stringify x with
                        | Some text => text
                        | None => "null"
                        end :: elements rest
                    end) items)
           ++ "]")
  | JObj props =>
      Some
        ("{"
           ++ String.concat ","
                ((fix members (l : list (string * JsValue)) : list string :=
                    match l with
                    | [] => []
                    | (key, x) :: rest =>
                        match stringify x with
                        | Some text =>
                            (quote key ++ ":" ++ text) :: members rest
                        | None => members rest
                        end
                    end) props)
           ++ "}")
  end.

End JSON.

(** The runtime whose network is [net]. *)
Definition runtime (net : list Request -> Request -> Settled Response)
  : Runtime :=
  {| URL_new := WHATWG.parse;
     JSON_stringify := JSON.stringify;
     Number_toString := Number.toString;
     network := net |}.

(** Modelled from the spec: [Errors.HandleError] of src/errors.ts, which
    is not among the sources; the specification describes its result as
    "a single error type carrying the server's message and HTTP
    status". *)
Definition HandleError_model (message : JsValue) (code : Z) : JsValue :=
  JObj [("status", JNum code); ("message", message)].

(* ================================================================== *)
(** ** Receivers and scenarios the statements are evaluated on *)
(* ================================================================== *)

(** [new Users({ usersUrl: "http://localhost:9002",
                 clientsUrl: "http://localhost:9006" })]. *)
Definition local_users : Users.t :=
  {| Users.usersUrl :=
       {| href := "http://localhost:9002/"; host := "localhost:9002";
          search := "" |};
     Users.clientsUrl :=
       Some
         {| href := "http://localhost:9006/"; host := "localhost:9006";
            search := "" |};
     Users.contentType := "application/json";
     Users.usersEndpoint := "users";
     Users.searchEndpoint := "search" |}.

(** [new Journal("http://localhost:9021")]. *)
Definition local_journal : Journal.t :=
  {| Journal.journalsUrl :=
       {| href := "http://localhost:9021/"; host := "localhost:9021";
          search := "" |};
     Journal.journalsEndpoint := "journal";
     Journal.contentType := "application/json" |}.

(** A network that answers every request alike. *)
Definition answering (answer : Settled Response)
  : list Request -> Request -> Settled Response :=
  fun _ _ => answer.

(** A 404 whose body carries a message. *)
Definition not_found : Response :=
  {| status := 404;
     json := Resolved (JObj [("message", JStr "not found")]) |}.

(** A 500 whose body is the JSON text [null]. *)
Definition null_failure : Response :=
  {| status := 500; json := Resolved JNull |}.

(** A 200 whose body is [{"id": "u1"}]. *)
Definition found : Response :=
  {| status := 200; json := Resolved (JObj [("id", JStr "u1")]) |}.

(** What [fetch] rejects with when the server cannot be reached. *)
Definition fetch_failed : JsValue := TypeError "fetch failed".

(** [new Users(...)] with both services behind one host, told apart by
    their paths. *)
Definition proxied_users : Users.t :=
  {| Users.usersUrl :=
       {| href := "http://localhost/users-api/"; host := "localhost";
          search := "" |};
     Users.clientsUrl :=
       Some
         {| href := "http://localhost/clients-api/"; host := "localhost";
            search := "" |};
     Users.contentType := "application/json";
     Users.usersEndpoint := "users";
     Users.searchEndpoint := "search" |}.

(** The headers of a listing request made with the token ["token"]. *)
Definition listing_init : RequestInit :=
  {| method := "GET";
     headers :=
       [("Content-Type", "application/json");
        ("Authorization", "Bearer token")];
     body := None |}.

(** What [response.json()] rejects with on a body that is no JSON. *)
Definition syntax_error : JsValue :=
  JObj
    [("name", JStr "SyntaxError");
     ("message", JStr "Unexpected token < in JSON at position 0")].

(** A 502 from a proxy, with an HTML body. *)
Definition bad_gateway : Response :=
  {| status := 502; json := Rejected syntax_error |}.

(** A receiver that came out of its class's constructor. *)
Definition constructed (rt : Runtime) {k : Client} : This k -> Prop :=
  match k with
  | UsersClient => fun this =>
      exists users_url clients_url,
        Users.constructor rt users_url clients_url = Return this
  | JournalClient => fun this =>
      exists journals_url, Journal.constructor rt journals_url = Return this
  end.

Definition content_type {k : Client} : This k -> string :=
  match k with
  | UsersClient => Users.contentType
  | JournalClient => Journal.contentType
  end.

(** The life of a client: one call after the other on the same
    receiver. *)
Fixpoint lifetime (rt : Runtime) (HandleError : JsValue -> Z -> JsValue)
  {k : Client} (calls : list (Call k)) (s : Store (This k))
  : Store (This k) :=
  match calls with
  | [] => s
  | c :: rest =>
      lifetime rt HandleError rest (snd (invoke rt HandleError c s))
  end.

(** The methods that take a [queryParams] object, with their resource
    path as the API documents it and the parameters they were given. *)
Definition listing {k : Client} : Call k -> option (string * JsObject) :=
  match k with
  | UsersClient => fun c =>
      match c with
      | Users.call_Users queryParams _ => Some ("users", queryParams)
      | Users.call_SearchUsers queryParams _ =>
          Some ("users/search", queryParams)
      | Users.call_ListUserGroups domainId userId queryParams _ =>
          Some (domainId ++ "/users/" ++ userId ++ "/groups", queryParams)
      | Users.call_ListUserClients userId domainId queryParams _ =>
          Some (domainId ++ "/users/" ++ userId ++ "/clients", queryParams)
      | Users.call_ListUserChannels domainId userId queryParams _ =>
          Some (domainId ++ "/users/" ++ userId ++ "/channels", queryParams)
      | _ => None
      end
  | JournalClient => fun c =>
      match c with
      | Journal.call_Journal entityType entityId domainId queryParams _ =>
          Some
            (domainId ++ "/journal/" ++ entityType ++ "/" ++ entityId,
             queryParams)
      end
  end.

(** The host a request goes to: [fetch] parses the URL string it is
    given. *)
Definition target_host (rt : Runtime) (request : Request) : option string :=
  option_map host (URL_new rt (url request) None).

(** The query string of the URL a request goes to, as [fetch] reads
    it off the URL string. *)
Definition target_search (rt : Runtime) (request : Request)
  : option string :=
  option_map search (URL_new rt (url request) None).

(** No byte of the string is one of the given bytes. *)
Definition free_of (bytes : string) (s : string) : bool :=
  WHATWG.all (fun c => negb (WHATWG.one_of bytes c)) s.

(** The bytes the form-urlencoded serializer writes. *)
Definition urlencoded_byte (c : ascii) : bool :=
  is_alnum c || Ascii.eqb c "*" || Ascii.eqb c "-" || Ascii.eqb c "."
  || Ascii.eqb c "_" || Ascii.eqb c "+" || Ascii.eqb c "%"
  || Ascii.eqb c "=" || Ascii.eqb c "&".

(** A rule of the URL Standard, as a property of a runtime: in an input
    whose first [?] comes before any [#], what follows that [?], when it
    is urlencoded text, is the query of the URL. *)
Definition keeps_query (rt : Runtime) : Prop :=
  forall (path query : string) (from : option URL) (target : URL),
    free_of "?#" path = true ->
    WHATWG.all urlencoded_byte query = true ->
    URL_new rt (path ++ "?" ++ query) from = Some target ->
    search target
    = match query with
      | EmptyString => ""
      | _ => "?" ++ query
      end.

(** The bytes of an identifier: letters, digits and the hyphen. *)
Definition id_byte (c : ascii) : bool := is_alnum c || Ascii.eqb c "-".

(** A rule of the URL Standard, as a property of a runtime at one base:
    a reference that starts with an identifier and a slash has no scheme
    and no authority of its own, so the URL it resolves to has the host
    of the base. *)
Definition keeps_host (rt : Runtime) (from : URL) : Prop :=
  forall (id rest : string) (target : URL),
    id <> "" ->
    WHATWG.all id_byte id = true ->
    URL_new rt (id ++ "/" ++ rest) (Some from) = Some target ->
    host target = host from.

(** Where [Users.Users({offset: 0, limit: 10})] goes on the local
    client. *)
Definition listed_users : URL :=
  {| href := "http://localhost:9002/users?offset=0&limit=10";
     host := "localhost:9002";
     search := "?offset=0&limit=10" |}.


(** How often a byte occurs in a string. *)
Fixpoint occurrences (c : ascii) (s : string) : nat :=
  match s with
  | EmptyString => 0
  | String d rest =>
      if Ascii.eqb d c then S (occurrences c rest) else occurrences c rest
  end.

(** The methods that address one user: the value whose conversion to
    a string they splice into the path, and what they put after it. *)
Definition addressed (c : Users.Call) : option (JsValue * string) :=
  match c with
  | Users.call_Update user _ => Some (get "id" user, "")
  | Users.call_UpdateEmail user _ => Some (get "id" user, "/email")
  | Users.call_UpdateUsername user _ => Some (get "id" user, "/username")
  | Users.call_UpdateProfilePicture user _ =>
      Some (get "id" user, "/picture")
  | Users.call_UpdateUserTags user _ => Some (get "id" user, "/tags")
  | Users.call_UpdateUserRole user _ => Some (get "id" user, "/role")
  | Users.call_Disable user _ => Some (get "id" user, "/disable")
  | Users.call_Enable user _ => Some (get "id" user, "/enable")
  | Users.call_User userId _ => Some (JStr userId, "")
  | Users.call_DeleteUser userId _ => Some (JStr userId, "")
  | _ => None
  end.

(** The same call, made with another bearer token; the calls that
    authenticate with none are left as they are. *)
Definition with_token {k : Client} (token : string) : Call k -> Call k :=
  match k with
  | UsersClient => fun c =>
      match c with
      | Users.call_Create user _ => Users.call_Create user (Some token)
      | Users.call_CreateToken login => Users.call_CreateToken login
      | Users.call_RefreshToken _ => Users.call_RefreshToken token
      | Users.call_Update user _ => Users.call_Update user token
      | Users.call_UpdateEmail user _ => Users.call_UpdateEmail user token
      | Users.call_UpdateUsername user _ =>
          Users.call_UpdateUsername user token
      | Users.call_UpdateProfilePicture user _ =>
          Users.call_UpdateProfilePicture user token
      | Users.call_UpdateUserTags user _ =>
          Users.call_UpdateUserTags user token
      | Users.call_UpdateUserPassword oldSecret newSecret _ =>
          Users.call_UpdateUserPassword oldSecret newSecret token
      | Users.call_UpdateUserRole user _ =>
          Users.call_UpdateUserRole user token
      | Users.call_User userId _ => Users.call_User userId token
      | Users.call_UserProfile _ => Users.call_UserProfile token
      | Users.call_Users queryParams _ => Users.call_Users queryParams token
      | Users.call_Disable user _ => Users.call_Disable user token
      | Users.call_Enable user _ => Users.call_Enable user token
      | Users.call_ListUserGroups domainId userId queryParams _ =>
          Users.call_ListUserGroups domainId userId queryParams token
      | Users.call_ListUserClients userId domainId queryParams _ =>
          Users.call_ListUserClients userId domainId queryParams token
      | Users.call_ListUserChannels domainId userId queryParams _ =>
          Users.call_ListUserChannels domainId userId queryParams token
      | Users.call_ResetPasswordRequest email hostUrl =>
          Users.call_ResetPasswordRequest email hostUrl
      | Users.call_ResetPassword password confPass resetToken =>
          Users.call_ResetPassword password confPass resetToken
      | Users.call_DeleteUser userId _ => Users.call_DeleteUser userId token
      | Users.call_SearchUsers queryParams _ =>
          Users.call_SearchUsers queryParams token
      end
  | JournalClient => fun c =>
      match c with
      | Journal.call_Journal entityType entityId domainId queryParams _ =>
          Journal.call_Journal entityType entityId domainId queryParams
            token
      end
  end.

(** The headers other than [Authorization]. *)
Definition unauthenticated (hs : list (string * string))
  : list (string * string) :=
  filter (fun h => negb (String.eqb (fst h) "Authorization")) hs.

(** What [UpdateUserPassword("old", "new", token)] hands to [fetch] on
    the local client. *)
Definition password_request (token : string) : Request :=
  {| url := "http://localhost:9002/users/secret";
     init :=
       {| method := "PATCH";
          headers :=
            [("Content-Type", "application/json");
             ("Authorization", "Bearer " ++ token)];
          body :=
            JSON.stringify
              (JObj [("old_secret", JStr "old"); ("new_secret", JStr "new")])
       |} |}.

(** A user record with more than an email, and the part of it
    [UpdateEmail] needs. *)
Definition jane : JsObject :=
  [("id", JStr "u1"); ("email", JStr "jane@example.com");
   ("role", JStr "admin"); ("tags", JArr [JStr "staff"])].

Definition jane_email : JsObject :=
  [("id", JStr "u1"); ("email", JStr "jane@example.com")].

(* ================================================================== *)
(** ** Every method is one exchange *)
(* ================================================================== *)

Section Shape.

Variable rt : Runtime.
Variable HandleError : JsValue -> Z -> JsValue.

Lemma invoke_exchange (k : Client) (c : Call k) (s : Store (This k)) :
  invoke rt HandleError c s
  = exchange rt HandleError (plan rt (self s) c) (fixed_message c) s.
Proof.
  destruct k; destruct c; destruct s as [this before];
    cbn [invoke Users.invoke Journal.invoke];
    unfold Users.Create, Users.CreateToken, Users.RefreshToken,
      Users.Update, Users.UpdateEmail, Users.UpdateUsername,
      Users.UpdateProfilePicture, Users.UpdateUserTags,
      Users.UpdateUserPassword, Users.UpdateUserRole, Users.User,
      Users.UserProfile, Users.Users, Users.Disable, Users.Enable,
      Users.ListUserGroups, Users.ListUserClients, Users.ListUserChannels,
      Users.ResetPasswordRequest, Users.ResetPassword, Users.DeleteUser,
      Users.SearchUsers, Journal.Journal;
    unfold exchange, plan, conclude, try_catch, bind, receiver, complete,
      fetch, new_URL, and_then, throw, ret;
    cbn [self fetched reference base options fixed_message
           Users_reference Users_base Users_fixed_message Users_verb
           Users_headers Users_body Users_bearer];
    unfold query_of, string_params, and_then;
    try (destruct (ToString rt _); [ | reflexivity ]);
    try (destruct (Array_map _ _); [ | reflexivity ]);
    (destruct (URL_new rt _ _); [ | reflexivity ]);
    cbn [self fetched url init];
    (destruct (network rt _ _) as [response | e]; [ | reflexivity ]);
    (destruct (ok response); cbn [negb]);
    try (destruct (json response) as [data | e]; cbn [await ret throw];
         try reflexivity;
         destruct (GetV data "message"); reflexivity);
    reflexivity.
Qed.

End Shape.

(* ================================================================== *)
(** ** How an invocation runs *)
(* ================================================================== *)

Section Runs.

Variable rt : Runtime.
Variable HandleError : JsValue -> Z -> JsValue.
Context {k : Client}.
Variable c : Call k.
Variable this : This k.
Variable before : list Request.

Lemma run_invoke :
  run (invoke rt HandleError c) this before
  = exchange rt HandleError (plan rt this c) (fixed_message c)
      {| self := this; fetched := before |}.
Proof. unfold run. now rewrite invoke_exchange. Qed.

(** The trace grows by the planned request, or not at all. *)
Lemma trace_invoke :
  trace (invoke rt HandleError c) this before
  = (before
       ++ match plan rt this c with
          | Return request => [request]
          | Throw _ => []
          end)%list.
Proof.
  unfold trace. rewrite run_invoke. unfold exchange.
  destruct (plan rt this c) as [request | e]; cbn.
  - now destruct (network rt before request).
  - now rewrite app_nil_r.
Qed.

Lemma sent_planned (request : Request) :
  trace (invoke rt HandleError c) this before
  = (before ++ [request])%list ->
  plan rt this c = Return request.
Proof.
  rewrite trace_invoke.
  destruct (plan rt this c) as [planned | e]; intros E.
  - apply app_inv_head in E. now inversion E.
  - apply app_inv_head in E. discriminate E.
Qed.

Lemma outcome_sent (request : Request) :
  plan rt this c = Return request ->
  outcome (invoke rt HandleError c) this before
  = match network rt before request with
    | Resolved response => conclude HandleError (fixed_message c) response
    | Rejected e => Throw e
    end.
Proof.
  intros P. unfold outcome. rewrite run_invoke, P. cbn.
  now destruct (network rt before request).
Qed.

Lemma outcome_unplanned (e : JsValue) :
  plan rt this c = Throw e ->
  outcome (invoke rt HandleError c) this before = Throw e.
Proof. intros P. unfold outcome. now rewrite run_invoke, P. Qed.

Lemma receiver_invoke :
  receiver_after (invoke rt HandleError c) this before = this.
Proof.
  unfold receiver_after. rewrite run_invoke. unfold exchange.
  destruct (plan rt this c) as [request | e]; cbn; [ | reflexivity ].
  now destruct (network rt before request).
Qed.

(** The planned request, spelled out. *)
Lemma plan_request (request : Request) :
  plan rt this c = Return request ->
  exists input target,
    reference rt this c = Return input
    /\ URL_new rt input (base this c) = Some target
    /\ request
       = {| url := URL_toString target; init := options rt this c |}.
Proof.
  unfold plan, new_URL.
  destruct (reference rt this c) as [input | e] eqn:Built; cbn;
    [ | discriminate ].
  destruct (URL_new rt input (base this c)) as [target | ] eqn:Parsed;
    cbn; intros E; [ | discriminate E ].
  exists input, target.
  split; [ reflexivity | ]. split; [ exact Parsed | ]. now inversion E.
Qed.

End Runs.

(* ================================================================== *)
(** ** The scenarios are what the constructors build *)
(* ================================================================== *)

Lemma local_users_constructed
  (net : list Request -> Request -> Settled Response) :
  Users.constructor (runtime net) "http://localhost:9002"
    (Some "http://localhost:9006")
  = Return local_users.
Proof. reflexivity. Qed.

Lemma local_journal_constructed
  (net : list Request -> Request -> Settled Response) :
  Journal.constructor (runtime net) "http://localhost:9021"
  = Return local_journal.
Proof. reflexivity. Qed.

(* ================================================================== *)
(** ** Responses with a non-success status *)
(* ================================================================== *)

(** C1, as amended.  For every public request method of Users and
    Journal: when the response to the request it sent has a non-success
    status and its body parses as JSON to a value other than [null], the
    method throws [Errors.HandleError(errorRes.message, response.status)]
    ([errorRes.message] being [undefined] when the body has no such
    property) and returns no value. *)
Theorem non_ok_response_throws_HandleError
  (rt : Runtime) (HandleError : JsValue -> Z -> JsValue) (k : Client)
  (c : Call k) (this : This k) (before : list Request) (request : Request)
  (response : Response) (errorRes : JsValue) :
  trace (invoke rt HandleError c) this before = (before ++ [request])%list ->
  network rt before request = Resolved response ->
  ok response = false ->
  json response = Resolved errorRes ->
  errorRes <> JNull ->
  errorRes <> JUndefined ->
  exists message,
    GetV errorRes "message" = Return message
    /\ outcome (invoke rt HandleError c) this before
       = Throw (HandleError message (status response))
    /\ forall value,
         outcome (invoke rt HandleError c) this before <> Return value.
Proof.
  intros Sent Answer Status Body NotNull NotUndefined.
  apply sent_planned in Sent.
  rewrite (outcome_sent _ _ _ _ _ _ Sent), Answer.
  unfold conclude. rewrite Status, Body.
  destruct errorRes; try contradiction;
    (eexists; split; [ reflexivity | split; [ reflexivity | discriminate ] ]).
Qed.

(** [Users.User("u1", "token")] answered 404 with
    [{"message": "not found"}]. *)
Lemma non_ok_response_throws_HandleError_witness :
  outcome
    (invoke (runtime (answering (Resolved not_found))) HandleError_model
       (k := UsersClient) (Users.call_User "u1" "token"))
    local_users []
  = Throw (HandleError_model (JStr "not found") 404).
Proof.
  destruct
    (non_ok_response_throws_HandleError
       (runtime (answering (Resolved not_found))) HandleError_model
       UsersClient (Users.call_User "u1" "token") local_users []
       {| url := "http://localhost:9002/users/u1";
          init :=
            {| method := "GET";
               headers :=
                 [("Content-Type", "application/json");
                  ("Authorization", "Bearer token")];
               body := None |} |}
       not_found (JObj [("message", JStr "not found")])
       eq_refl eq_refl eq_refl eq_refl
       ltac:(discriminate) ltac:(discriminate))
    as [message [Read [Thrown _]]].
  rewrite Thrown. inversion Read. reflexivity.
Defined.

(** C1 as stated fails on an error body that is the JSON value [null]:
    [Users.Create] answered 500 with body [null] throws the [TypeError] of
    reading [null.message], which is no result of [HandleError]. *)
Lemma null_error_body_counterexample :
  ok null_failure = false
  /\ json null_failure = Resolved JNull
  /\ outcome
       (invoke (runtime (answering (Resolved null_failure)))
          HandleError_model (k := UsersClient)
          (Users.call_Create [("email", JStr "jane@example.com")]
             (Some "token")))
       local_users []
     = Throw
         (TypeError "Cannot read properties of null (reading 'message')")
  /\ forall message,
       outcome
         (invoke (runtime (answering (Resolved null_failure)))
            HandleError_model (k := UsersClient)
            (Users.call_Create [("email", JStr "jane@example.com")]
               (Some "token")))
         local_users []
       <> Throw (HandleError_model message 500).
Proof.
  repeat split. intros message. vm_compute. discriminate.
Qed.

(* ================================================================== *)
(** ** Responses with a success status *)
(* ================================================================== *)

(** C2, as amended.  When the response has a success status, every
    method except [ResetPasswordRequest], [ResetPassword] and
    [DeleteUser] returns the parsed JSON body, provided the body parses;
    these three (the calls with a [fixed_message]) return
    [{ status: response.status, message }] with their fixed message and
    do not read the body. *)
Theorem success_returns_body_or_built_response
  (rt : Runtime) (HandleError : JsValue -> Z -> JsValue) (k : Client)
  (c : Call k) (this : This k) (before : list Request) (request : Request)
  (response : Response) :
  trace (invoke rt HandleError c) this before = (before ++ [request])%list ->
  network rt before request = Resolved response ->
  ok response = true ->
  match fixed_message c with
  | Some message =>
      outcome (invoke rt HandleError c) this before
      = Return (status_message (status response) message)
  | None =>
      forall data,
        json response = Resolved data ->
        outcome (invoke rt HandleError c) this before = Return data
  end.
Proof.
  intros Sent Answer Status.
  apply sent_planned in Sent.
  rewrite (outcome_sent _ _ _ _ _ _ Sent), Answer.
  unfold conclude. rewrite Status.
  destruct (fixed_message c) as [message | ]; [ reflexivity | ].
  intros data Body. now rewrite Body.
Qed.

(** [Users.UserProfile("token")] answered 200 with [{"id": "u1"}]. *)
Lemma success_returns_body_or_built_response_witness :
  outcome
    (invoke (runtime (answering (Resolved found))) HandleError_model
       (k := UsersClient) (Users.call_UserProfile "token"))
    local_users []
  = Return (JObj [("id", JStr "u1")]).
Proof.
  exact
    (success_returns_body_or_built_response
       (runtime (answering (Resolved found))) HandleError_model
       UsersClient (Users.call_UserProfile "token") local_users []
       {| url := "http://localhost:9002/users/profile";
          init :=
            {| method := "GET";
               headers :=
                 [("Content-Type", "application/json");
                  ("Authorization", "Bearer token")];
               body := None |} |}
       found eq_refl eq_refl eq_refl
       (JObj [("id", JStr "u1")]) eq_refl).
Defined.

(** C2 as stated fails for [DeleteUser]: answered 200 with the body
    [{"id": "u1"}], it returns a [Response] of its own making. *)
Lemma DeleteUser_counterexample :
  ok found = true
  /\ json found = Resolved (JObj [("id", JStr "u1")])
  /\ outcome
       (invoke (runtime (answering (Resolved found))) HandleError_model
          (k := UsersClient) (Users.call_DeleteUser "u1" "token"))
       local_users []
     = Return (status_message 200 "User deleted successfully")
  /\ outcome
       (invoke (runtime (answering (Resolved found))) HandleError_model
          (k := UsersClient) (Users.call_DeleteUser "u1" "token"))
       local_users []
     <> Return (JObj [("id", JStr "u1")]).
Proof.
  repeat split. vm_compute. discriminate.
Qed.

(* ================================================================== *)
(** ** Failures other than a status *)
(* ================================================================== *)

(** C3.  For every public request method of Users and Journal: when
    [fetch] rejects, the method throws the very value [fetch] rejected
    with; when [response.json()] rejects, on a non-success response or on
    a success response whose body the method reads, the method throws the
    very value it rejected with. *)
Theorem failures_propagate_unchanged
  (rt : Runtime) (HandleError : JsValue -> Z -> JsValue) (k : Client)
  (c : Call k) (this : This k) (before : list Request) (request : Request) :
  trace (invoke rt HandleError c) this before = (before ++ [request])%list ->
  (forall e,
     network rt before request = Rejected e ->
     outcome (invoke rt HandleError c) this before = Throw e)
  /\ (forall response e,
        network rt before request = Resolved response ->
        json response = Rejected e ->
        ok response = false \/ fixed_message c = None ->
        outcome (invoke rt HandleError c) this before = Throw e).
Proof.
  intros Sent. apply sent_planned in Sent.
  rewrite (outcome_sent _ _ _ _ _ _ Sent). split.
  - intros e Answer. now rewrite Answer.
  - intros response e Answer Body Read. rewrite Answer.
    unfold conclude. rewrite Body.
    destruct (ok response); [ | reflexivity ].
    destruct Read as [Status | Reads]; [ discriminate Status | ].
    now rewrite Reads.
Qed.

(** [Journal.Journal("client", "c1", "d1", {limit: 10}, "token")], once
    while the server cannot be reached and once answered by a proxy with
    a 502 and an HTML page. *)
Lemma failures_propagate_unchanged_witness :
  outcome
    (invoke (runtime (answering (Rejected fetch_failed))) HandleError_model
       (k := JournalClient)
       (Journal.call_Journal "client" "c1" "d1" [("limit", JNum 10)]
          "token"))
    local_journal []
  = Throw fetch_failed
  /\ outcome
       (invoke (runtime (answering (Resolved bad_gateway)))
          HandleError_model (k := JournalClient)
          (Journal.call_Journal "client" "c1" "d1" [("limit", JNum 10)]
             "token"))
       local_journal []
     = Throw syntax_error.
Proof.
  split.
  - exact
      (proj1
         (failures_propagate_unchanged
            (runtime (answering (Rejected fetch_failed))) HandleError_model
            JournalClient
            (Journal.call_Journal "client" "c1" "d1" [("limit", JNum 10)]
               "token")
            local_journal []
            {| url := "http://localhost:9021/d1/journal/client/c1?limit=10";
               init := listing_init |}
            eq_refl)
         fetch_failed eq_refl).
  - exact
      (proj2
         (failures_propagate_unchanged
            (runtime (answering (Resolved bad_gateway))) HandleError_model
            JournalClient
            (Journal.call_Journal "client" "c1" "d1" [("limit", JNum 10)]
               "token")
            local_journal []
            {| url := "http://localhost:9021/d1/journal/client/c1?limit=10";
               init := listing_init |}
            eq_refl)
         bad_gateway syntax_error eq_refl eq_refl (or_introl eq_refl)).
Defined.

(* ================================================================== *)
(** ** One call of fetch *)
(* ================================================================== *)




(* ================================================================== *)
(** ** The Authorization header *)
(* ================================================================== *)

(** C5, as amended.  Every request sent by a public method of Users and
    Journal other than [CreateToken], [ResetPasswordRequest] and
    [ResetPassword] has an [Authorization] header whose value is
    ["Bearer "] followed by the token the caller supplied (the refresh
    token for [RefreshToken]; [String(token)] for [Create]); the requests
    of these three methods (the calls without a [bearer]) have no
    [Authorization] header. *)
Theorem authorization_header
  (rt : Runtime) (HandleError : JsValue -> Z -> JsValue) (k : Client)
  (c : Call k) (this : This k) (before : list Request) (request : Request) :
  trace (invoke rt HandleError c) this before = (before ++ [request])%list ->
  header "Authorization" (headers (init request))
  = option_map (fun token => "Bearer " ++ token) (bearer c).
Proof.
  intros Sent. apply sent_planned in Sent.
  destruct (plan_request _ _ _ _ Sent) as [input [target [_ [_ Request]]]].
  subst request. now destruct k; destruct c.
Qed.

(** [Users.Update({id: "u1"}, "token")]. *)
Lemma authorization_header_witness :
  trace
    (invoke (runtime (answering (Resolved found))) HandleError_model
       (k := UsersClient)
       (Users.call_Update [("id", JStr "u1")] "token"))
    local_users []
  = [{| url := "http://localhost:9002/users/u1";
        init :=
          {| method := "PATCH";
             headers :=
               [("Content-Type", "application/json");
                ("Authorization", "Bearer token")];
             body := JSON.stringify (JObj [("id", JStr "u1")]) |} |}]
  /\ header "Authorization"
       [("Content-Type", "application/json");
        ("Authorization", "Bearer token")]
     = Some "Bearer token".
Proof.
  split; [ reflexivity | ].
  exact
    (authorization_header
       (runtime (answering (Resolved found))) HandleError_model
       UsersClient (Users.call_Update [("id", JStr "u1")] "token")
       local_users []
       {| url := "http://localhost:9002/users/u1";
          init :=
            {| method := "PATCH";
               headers :=
                 [("Content-Type", "application/json");
                  ("Authorization", "Bearer token")];
               body := JSON.stringify (JObj [("id", JStr "u1")]) |} |}
       eq_refl).
Defined.

(** C5 as stated fails for [CreateToken]: the one request it sends has a
    [Content-Type] header and nothing else. *)
Lemma CreateToken_counterexample :
  trace
    (invoke (runtime (answering (Resolved found))) HandleError_model
       (k := UsersClient)
       (Users.call_CreateToken
          [("identity", JStr "admin"); ("secret", JStr "12345678")]))
    local_users []
  = [{| url := "http://localhost:9002/users/tokens/issue";
        init :=
          {| method := "POST";
             headers := [("Content-Type", "application/json")];
             body :=
               JSON.stringify
                 (JObj
                    [("identity", JStr "admin");
                     ("secret", JStr "12345678")]) |} |}]
  /\ header "Authorization" [("Content-Type", "application/json")] = None.
Proof. split; reflexivity. Qed.

(* ================================================================== *)
(** ** The configuration of a client *)
(* ================================================================== *)

Lemma lifetime_receiver
  (rt : Runtime) (HandleError : JsValue -> Z -> JsValue) (k : Client)
  (calls : list (Call k)) (s : Store (This k)) :
  self (lifetime rt HandleError calls s) = self s.
Proof.
  revert s. induction calls as [ | c rest IH]; intros s; cbn.
  - reflexivity.
  - rewrite IH. destruct s as [this before].
    exact (receiver_invoke rt HandleError c this before).
Qed.

Lemma constructed_content_type (rt : Runtime) (k : Client) (this : This k) :
  constructed rt this -> content_type this = "application/json".
Proof.
  destruct k; cbn.
  - intros [users_url [clients_url Built]].
    unfold Users.constructor, and_then in Built.
    destruct (new_URL rt users_url None); [ | discriminate Built ].
    destruct (match clients_url with
              | Some given => new_URL rt given None
              | None => new_URL rt "" None
              end); [ | discriminate Built ].
    now inversion Built.
  - intros [journals_url Built].
    unfold Journal.constructor, and_then in Built.
    destruct (new_URL rt journals_url None); [ | discriminate Built ].
    now inversion Built.
Qed.

(** C6.  After construction, no sequence of calls of public methods
    changes the client, that is, any of [usersUrl], [clientsUrl],
    [contentType], [usersEndpoint], [searchEndpoint] of a Users client or
    [journalsUrl], [contentType], [journalsEndpoint] of a Journal client;
    and [contentType] is ["application/json"] all along. *)
Theorem configuration_never_changes
  (rt : Runtime) (HandleError : JsValue -> Z -> JsValue) (k : Client)
  (this : This k) (calls : list (Call k)) (before : list Request) :
  constructed rt this ->
  self (lifetime rt HandleError calls {| self := this; fetched := before |})
  = this
  /\ content_type
       (self
          (lifetime rt HandleError calls
             {| self := this; fetched := before |}))
     = "application/json".
Proof.
  intros Built. rewrite lifetime_receiver. cbn [self].
  split; [ reflexivity | exact (constructed_content_type rt k this Built) ].
Qed.

(** A Users client over two calls, the first answered 404. *)
Lemma configuration_never_changes_witness :
  self
    (lifetime (runtime (answering (Resolved not_found))) HandleError_model
       (k := UsersClient)
       [Users.call_User "u1" "token"; Users.call_DeleteUser "u1" "token"]
       {| self := local_users; fetched := [] |})
  = local_users
  /\ Users.contentType
       (self
          (lifetime (runtime (answering (Resolved not_found)))
             HandleError_model (k := UsersClient)
             [Users.call_User "u1" "token";
              Users.call_DeleteUser "u1" "token"]
             {| self := local_users; fetched := [] |}))
     = "application/json".
Proof.
  exact
    (configuration_never_changes
       (runtime (answering (Resolved not_found))) HandleError_model
       UsersClient local_users
       [Users.call_User "u1" "token"; Users.call_DeleteUser "u1" "token"]
       []
       (ex_intro _ "http://localhost:9002"
          (ex_intro _ (Some "http://localhost:9006") eq_refl))).
Defined.

(* ================================================================== *)
(** ** Strings *)
(* ================================================================== *)

Lemma append_assoc (a b c : string) : (a ++ b) ++ c = a ++ b ++ c.
Proof. induction a as [ | x a IH]; cbn; [ reflexivity | now rewrite IH ]. Qed.

Lemma append_empty (s : string) : s ++ "" = s.
Proof. induction s as [ | c s IH]; cbn; [ reflexivity | now rewrite IH ]. Qed.

Lemma all_implied (p q : ascii -> bool) (s : string) :
  (forall c, p c = true -> q c = true) ->
  WHATWG.all p s = true -> WHATWG.all q s = true.
Proof.
  intros Implied. induction s as [ | c s IH]; cbn; [ reflexivity | ].
  intros All. apply andb_true_iff in All. destruct All as [Head Tail].
  now rewrite (Implied c Head), IH.
Qed.

Lemma all_append (p : ascii -> bool) (a b : string) :
  WHATWG.all p (a ++ b) = WHATWG.all p a && WHATWG.all p b.
Proof.
  induction a as [ | c a IH]; cbn; [ reflexivity | ].
  now rewrite IH, andb_assoc.
Qed.

(* ================================================================== *)
(** ** Two rules of the URL Standard, for the reference parser *)
(* ================================================================== *)

Lemma break_free (p : ascii -> bool) (s : string) :
  WHATWG.all (fun c => negb (p c)) s = true ->
  WHATWG.break p s = (s, "").
Proof.
  induction s as [ | c s IH]; cbn; [ reflexivity | ].
  intros Free. apply andb_true_iff in Free. destruct Free as [Head Tail].
  apply negb_true_iff in Head. now rewrite Head, (IH Tail).
Qed.

Lemma break_prefix (p : ascii -> bool) (a s : string) :
  WHATWG.all (fun c => negb (p c)) a = true ->
  WHATWG.break p (a ++ s)
  = (a ++ fst (WHATWG.break p s), snd (WHATWG.break p s)).
Proof.
  induction a as [ | c a IH]; cbn.
  - intros _. now destruct (WHATWG.break p s).
  - intros Free. apply andb_true_iff in Free. destruct Free as [Head Tail].
    apply negb_true_iff in Head. now rewrite Head, (IH Tail).
Qed.

Lemma urlencoded_no_hash (c : ascii) :
  urlencoded_byte c = true -> negb (WHATWG.byte_is "#" c) = true.
Proof.
  destruct c as [[] [] [] [] [] [] [] []]; vm_compute; congruence.
Qed.

Lemma plain_no_hash (c : ascii) :
  negb (WHATWG.one_of "?#" c) = true -> negb (WHATWG.byte_is "#" c) = true.
Proof.
  destruct c as [[] [] [] [] [] [] [] []]; vm_compute; congruence.
Qed.

Lemma plain_no_mark (c : ascii) :
  negb (WHATWG.one_of "?#" c) = true -> negb (WHATWG.byte_is "?" c) = true.
Proof.
  destruct c as [[] [] [] [] [] [] [] []]; vm_compute; congruence.
Qed.

(** The query of [path?query] is [query]. *)
Lemma analyse_query (path query : string) (from : option WHATWG.Parts)
  (parts : WHATWG.Parts) :
  free_of "?#" path = true ->
  WHATWG.all urlencoded_byte query = true ->
  WHATWG.analyse (path ++ "?" ++ query) from = WHATWG.Accepted parts ->
  WHATWG.query parts = Some query.
Proof.
  intros Plain Encoded. unfold WHATWG.analyse.
  destruct (WHATWG.all _ (path ++ "?" ++ query)); [ | discriminate ].
  rewrite (break_free (WHATWG.byte_is "#") (path ++ "?" ++ query)).
  2:{ rewrite all_append. apply andb_true_iff. split.
      - exact (all_implied _ _ path plain_no_hash Plain).
      - cbn. exact (all_implied _ _ query urlencoded_no_hash Encoded). }
  rewrite (break_prefix (WHATWG.byte_is "?") path ("?" ++ query)
             (all_implied _ _ path plain_no_mark Plain)).
  cbn [WHATWG.break WHATWG.byte_is Ascii.eqb Bool.eqb fst snd append].
  rewrite append_empty.
  destruct (WHATWG.parse_front path from) as [front | | ];
    cbn [WHATWG.next]; try discriminate.
  destruct (_ && _); [ | discriminate ].
  intros Analysed. now inversion Analysed.
Qed.

(** The reference parser keeps the query it is handed. *)
Lemma reference_keeps_query
  (net : list Request -> Request -> Settled Response) :
  keeps_query (runtime net).
Proof.
  intros path query from target Plain Encoded.
  cbn [URL_new runtime]. unfold WHATWG.parse, WHATWG.verdict.
  assert (Search :
    forall base parts,
      WHATWG.analyse (path ++ "?" ++ query) base = WHATWG.Accepted parts ->
      search (WHATWG.serialize parts)
      = match query with
        | EmptyString => ""
        | _ => "?" ++ query
        end).
  { intros base parts Analysed.
    pose proof (analyse_query path query base parts Plain Encoded Analysed)
      as Query.
    unfold WHATWG.serialize. cbn [search]. rewrite Query.
    now destruct query. }
  destruct from as [b | ].
  - destruct (WHATWG.analyse (href b) None) as [from | | ];
      try discriminate.
    destruct (WHATWG.analyse (path ++ "?" ++ query) (Some from))
      as [parts | | ] eqn:Analysed; cbn [WHATWG.next]; try discriminate.
    intros Parsed. inversion Parsed. exact (Search _ _ Analysed).
  - destruct (WHATWG.analyse (path ++ "?" ++ query) None)
      as [parts | | ] eqn:Analysed; cbn [WHATWG.next]; try discriminate.
    intros Parsed. inversion Parsed. exact (Search _ _ Analysed).
Qed.

Lemma id_no_slash (c : ascii) :
  id_byte c = true ->
  negb (WHATWG.byte_is "#" c) = true
  /\ negb (WHATWG.byte_is "?" c) = true
  /\ negb (negb (WHATWG.scheme_byte c)) = true.
Proof.
  destruct c as [[] [] [] [] [] [] [] []]; vm_compute; intros Id;
    try discriminate Id; repeat split.
Qed.

(** A reference that starts with an identifier and a slash is resolved
    on the host and port of the base. *)
Lemma parse_front_relative (c : ascii) (id rest : string)
  (from parts : WHATWG.Parts) :
  WHATWG.all id_byte (String c id) = true ->
  WHATWG.parse_front (String c id ++ "/" ++ rest) (Some from)
  = WHATWG.Accepted parts ->
  WHATWG.hostname parts = WHATWG.hostname from
  /\ WHATWG.port parts = WHATWG.port from.
Proof.
  intros Id. unfold WHATWG.parse_front.
  assert (Scheme :
    WHATWG.split_scheme (String c id ++ "/" ++ rest) = None).
  { unfold WHATWG.split_scheme. cbn [append].
    destruct (is_alpha c); [ | reflexivity ].
    change (String c (id ++ "/" ++ rest))
      with (String c id ++ "/" ++ rest).
    rewrite (break_prefix _ (String c id) ("/" ++ rest)).
    2:{ exact
          (all_implied _ _ _
             (fun c Byte => proj2 (proj2 (id_no_slash c Byte))) Id). }
    reflexivity. }
  rewrite Scheme. cbn [append].
  cbn [WHATWG.all] in Id. apply andb_true_iff in Id.
  destruct Id as [Head _].
  destruct c as [[] [] [] [] [] [] [] []]; try discriminate Head;
    (destruct (WHATWG.all WHATWG.path_byte _); [ | discriminate ]);
    intros Parsed; inversion Parsed; split; reflexivity.
Qed.

Lemma analyse_relative (id rest : string) (from parts : WHATWG.Parts) :
  id <> "" ->
  WHATWG.all id_byte id = true ->
  WHATWG.analyse (id ++ "/" ++ rest) (Some from) = WHATWG.Accepted parts ->
  WHATWG.hostname parts = WHATWG.hostname from
  /\ WHATWG.port parts = WHATWG.port from.
Proof.
  intros Filled Id. destruct id as [ | c id]; [ now destruct Filled | ].
  unfold WHATWG.analyse.
  destruct (WHATWG.all _ (String c id ++ "/" ++ rest)); [ | discriminate ].
  rewrite (break_prefix (WHATWG.byte_is "#") (String c id) ("/" ++ rest)
             (all_implied _ _ _ (fun c Byte => proj1 (id_no_slash c Byte))
                Id)).
  destruct (WHATWG.break (WHATWG.byte_is "#") ("/" ++ rest))
    as [main hash] eqn:Main.
  cbn [fst snd].
  assert (Slash : exists more, main = "/" ++ more).
  { cbn in Main. destruct (WHATWG.break (WHATWG.byte_is "#") rest).
    inversion Main. now eexists. }
  destruct Slash as [more ->].
  rewrite (break_prefix (WHATWG.byte_is "?") (String c id) ("/" ++ more)
             (all_implied _ _ _
                (fun c Byte => proj1 (proj2 (id_no_slash c Byte))) Id)).
  destruct (WHATWG.break (WHATWG.byte_is "?") ("/" ++ more))
    as [front mark] eqn:Front.
  cbn [fst snd].
  assert (Slash : exists path, front = "/" ++ path).
  { cbn in Front. destruct (WHATWG.break (WHATWG.byte_is "?") more).
    inversion Front. now eexists. }
  destruct Slash as [path ->].
  destruct (WHATWG.parse_front (String c id ++ "/" ++ path) (Some from))
    as [resolved | | ] eqn:Resolved; cbn [WHATWG.next]; try discriminate.
  destruct (parse_front_relative c id path from resolved Id Resolved)
    as [Host Port].
  destruct (_ && _); [ | discriminate ].
  intros Analysed. inversion Analysed. cbn. now split.
Qed.

(** The reference parser resolves such a reference on the host of a
    base it reads back as it wrote it. *)
Lemma reference_keeps_host
  (net : list Request -> Request -> Settled Response) (b : URL)
  (from : WHATWG.Parts) :
  WHATWG.analyse (href b) None = WHATWG.Accepted from ->
  host b = WHATWG.serialize_host from ->
  keeps_host (runtime net) b.
Proof.
  intros Read Host id rest target Filled Id.
  cbn [URL_new runtime]. unfold WHATWG.parse, WHATWG.verdict.
  rewrite Read.
  destruct (WHATWG.analyse (id ++ "/" ++ rest) (Some from))
    as [parts | | ] eqn:Analysed; cbn [WHATWG.next]; try discriminate.
  destruct (analyse_relative id rest from parts Filled Id Analysed)
    as [Name Port].
  intros Parsed. inversion Parsed. cbn [host WHATWG.serialize].
  unfold WHATWG.serialize_host. now rewrite Name, Port, Host.
Qed.

(* ================================================================== *)
(** ** Query parameters *)
(* ================================================================== *)

Lemma define_property_fresh {V} (key : string) (v : V)
  (o : list (string * V)) :
  ~ In key (map fst o) -> define_property key v o = (o ++ [(key, v)])%list.
Proof.
  induction o as [ | [k old] rest IH]; cbn; intros Fresh.
  - reflexivity.
  - destruct (String.eqb_spec k key) as [Same | Other].
    + exfalso. apply Fresh. now left.
    + rewrite IH; [ reflexivity | ]. intros Later. apply Fresh. now right.
Qed.

Lemma fromEntries_onto {V} (entries : list (string * V)) :
  forall o : list (string * V),
    NoDup (map fst (o ++ entries)%list) ->
    fold_left (fun o kv => define_property (fst kv) (snd kv) o) entries o
    = (o ++ entries)%list.
Proof.
  induction entries as [ | [key v] rest IH]; intros o Unique; cbn.
  - now rewrite app_nil_r.
  - assert (Fresh : ~ In key (map fst o)).
    { rewrite map_app in Unique. cbn in Unique.
      apply NoDup_remove_2 in Unique. intros Old. apply Unique.
      apply in_or_app. now left. }
    rewrite (define_property_fresh key v o Fresh).
    rewrite IH; rewrite <- app_assoc; [ reflexivity | exact Unique ].
Qed.

(** An object whose keys are distinct is rebuilt as it was. *)
Lemma fromEntries_distinct {V} (entries : list (string * V)) :
  NoDup (map fst entries) -> Object_fromEntries entries = entries.
Proof. intros Unique. exact (fromEntries_onto entries [] Unique). Qed.

(** What [map] returns when no call of the callback threw. *)
Lemma Array_map_returned {A B} (callback : A -> Completion B) (l : list A) :
  forall ys,
    Array_map callback l = Return ys ->
    Forall2 (fun x y => callback x = Return y) l ys.
Proof.
  induction l as [ | x rest IH]; cbn; intros ys Mapped.
  - inversion Mapped. constructor.
  - destruct (callback x) as [y | e] eqn:Head; cbn in Mapped;
      [ | discriminate Mapped ].
    destruct (Array_map callback rest) as [others | e]; cbn in Mapped;
      [ | discriminate Mapped ].
    inversion Mapped. constructor; [ exact Head | now apply IH ].
Qed.

(** The first throw of the callback is the throw of [map]. *)
Lemma Array_map_thrown {A B} (callback : A -> Completion B) (l : list A) :
  forall e,
    Array_map callback l = Throw e ->
    exists x, In x l /\ callback x = Throw e.
Proof.
  induction l as [ | x rest IH]; cbn; intros e Mapped.
  - discriminate Mapped.
  - destruct (callback x) as [y | e'] eqn:Head; cbn in Mapped.
    + destruct (Array_map callback rest) as [others | e'']; cbn in Mapped;
        [ discriminate Mapped | ].
      destruct (IH e'' eq_refl) as [x' [Member Failed]].
      inversion Mapped; subst. exists x'. split; [ now right | exact Failed ].
    + inversion Mapped; subst. exists x. split; [ now left | exact Head ].
Qed.

(** [stringParams], when it is built from an object: the same keys in
    the same order, each with the string its value converts to. *)
Lemma string_params_distinct
  (rt : Runtime) (queryParams : JsObject)
  (stringParams : list (string * string)) :
  NoDup (map fst queryParams) ->
  string_params rt queryParams = Return stringParams ->
  Forall2
    (fun kv entry =>
       fst entry = fst kv /\ ToString rt (snd kv) = Return (snd entry))
    queryParams stringParams.
Proof.
  intros Unique. unfold string_params, Object_entries.
  destruct (Array_map _ queryParams) as [entries | e] eqn:Mapped; cbn;
    [ | discriminate ].
  apply Array_map_returned in Mapped.
  assert (Entries :
    Forall2
      (fun kv entry =>
         fst entry = fst kv /\ ToString rt (snd kv) = Return (snd entry))
      queryParams entries).
  { clear Unique. induction Mapped as [ | [key value] entry q es Head _ IH].
    - constructor.
    - constructor; [ | exact IH ].
      cbn [fst snd].
      destruct (ToString rt value) as [text | e] eqn:Converted;
        cbn in Head; [ | discriminate Head ].
      inversion Head. now split. }
  assert (Keys : map fst entries = map fst queryParams).
  { clear Unique Mapped.
    induction Entries as [ | kv entry q es [Key _] _ IH];
      [ reflexivity | cbn; now rewrite Key, IH ]. }
  intros Built. rewrite fromEntries_distinct in Built;
    [ | now rewrite Keys ].
  inversion Built; subst. exact Entries.
Qed.

Lemma constructed_users (rt : Runtime) (this : Users.t) :
  constructed rt (k := UsersClient) this ->
  Users.usersEndpoint this = "users" /\ Users.searchEndpoint this = "search"
  /\ exists clients, Users.clientsUrl this = Some clients.
Proof.
  intros [users_url [clients_url Built]].
  unfold Users.constructor, and_then in Built.
  destruct (new_URL rt users_url None); [ | discriminate Built ].
  destruct (match clients_url with
            | Some given => new_URL rt given None
            | None => new_URL rt "" None
            end) as [clients | ]; [ | discriminate Built ].
  inversion Built. cbn. repeat split. now exists clients.
Qed.

Lemma constructed_journal (rt : Runtime) (this : Journal.t) :
  constructed rt (k := JournalClient) this ->
  Journal.journalsEndpoint this = "journal".
Proof.
  intros [journals_url Built].
  unfold Journal.constructor, and_then in Built.
  destruct (new_URL rt journals_url None); [ | discriminate Built ].
  now inversion Built.
Qed.

Lemma urlencode_bytes (s : string) :
  WHATWG.all urlencoded_byte (urlencode s) = true.
Proof.
  induction s as [ | c rest IH]; [ reflexivity | ].
  destruct c as [[] [] [] [] [] [] [] []]; cbn; exact IH.
Qed.

Lemma URLSearchParams_bytes (record : list (string * string)) :
  WHATWG.all urlencoded_byte (URLSearchParams_toString record) = true.
Proof.
  induction record as [ | [key value] rest IH]; [ reflexivity | ].
  cbn [URLSearchParams_toString].
  destruct rest as [ | next rest];
    rewrite !all_append, !urlencode_bytes; [ reflexivity | ].
  now rewrite IH.
Qed.

(** What a listing method hands to [new URL] is its resource path, a
    question mark and the query string. *)
Lemma listing_reference
  (rt : Runtime) (k : Client) (c : Call k) (this : This k) (path : string)
  (queryParams : JsObject) (stringParams : list (string * string)) :
  constructed rt this ->
  listing c = Some (path, queryParams) ->
  string_params rt queryParams = Return stringParams ->
  reference rt this c
  = Return (path ++ "?" ++ URLSearchParams_toString stringParams)
  /\ method (options rt this c) = "GET".
Proof.
  destruct k; intros Built Listed Strings.
  - destruct (constructed_users rt this Built) as [Users [Search _]].
    destruct c; try discriminate Listed; inversion Listed; subst;
      cbn [reference Users_reference options method Users_verb];
      rewrite Strings; cbn [and_then]; rewrite ?Users, ?Search;
      repeat first [ rewrite append_assoc | progress cbn [append] ];
      split; reflexivity.
  - pose proof (constructed_journal rt this Built) as Journals.
    destruct c. inversion Listed; subst.
    cbn [reference options method]. rewrite Strings, Journals.
    cbn [and_then].
    repeat first [ rewrite append_assoc | progress cbn [append] ].
    split; reflexivity.
Qed.

(** C7, as amended.  For every method that takes a [queryParams] object
    ([Users.Users], [Users.SearchUsers], [Users.ListUserGroups],
    [Users.ListUserClients], [Users.ListUserChannels],
    [Journal.Journal]), called on a constructed client with path
    arguments that hold no [?] and no [#] and with query parameters
    whose values [String()] converts: when [new URL] accepts the
    resource path followed by a question mark and the [URLSearchParams]
    serialization of the object that sends each key of [queryParams] to
    [String(value)], the method sends one request, its method is GET,
    and the query string of its URL is that serialization.  That the
    URL keeps the query handed to [new URL] is the URL Standard's rule
    [keeps_query]. *)
Theorem listing_request
  (rt : Runtime) (HandleError : JsValue -> Z -> JsValue) (k : Client)
  (c : Call k) (this : This k) (before : list Request)
  (path : string) (queryParams : JsObject)
  (stringParams : list (string * string)) (target : URL) :
  keeps_query rt ->
  constructed rt this ->
  listing c = Some (path, queryParams) ->
  NoDup (map fst queryParams) ->
  free_of "?#" path = true ->
  string_params rt queryParams = Return stringParams ->
  URL_new rt (path ++ "?" ++ URLSearchParams_toString stringParams)
    (base this c)
  = Some target ->
  Forall2
    (fun kv entry =>
       fst entry = fst kv /\ ToString rt (snd kv) = Return (snd entry))
    queryParams stringParams
  /\ exists request,
       trace (invoke rt HandleError c) this before
       = (before ++ [request])%list
       /\ method (init request) = "GET"
       /\ url request = URL_toString target
       /\ search target
          = match URLSearchParams_toString stringParams with
            | EmptyString => ""
            | _ => "?" ++ URLSearchParams_toString stringParams
            end.
Proof.
  intros Rule Built Listed Unique Plain Strings Parsed.
  split; [ exact (string_params_distinct rt _ _ Unique Strings) | ].
  destruct
    (listing_reference rt k c this path queryParams stringParams
       Built Listed Strings) as [Reference Verb].
  exists {| url := URL_toString target; init := options rt this c |}.
  split.
  - rewrite trace_invoke. unfold plan, new_URL.
    rewrite Reference. cbn [and_then]. now rewrite Parsed.
  - split; [ exact Verb | ]. split; [ reflexivity | ].
    exact
      (Rule path (URLSearchParams_toString stringParams) (base this c)
         target Plain (URLSearchParams_bytes stringParams) Parsed).
Qed.

(** [Users.Users({offset: 0, limit: 10}, "token")] on the local
    client. *)
Lemma listing_request_witness :
  Forall2
    (fun kv entry =>
       fst entry = fst kv
       /\ ToString (runtime (answering (Resolved found))) (snd kv)
          = Return (snd entry))
    [("offset", JNum 0); ("limit", JNum 10)]
    [("offset", "0"); ("limit", "10")]
  /\ exists request,
       trace
         (invoke (runtime (answering (Resolved found))) HandleError_model
            (k := UsersClient)
            (Users.call_Users [("offset", JNum 0); ("limit", JNum 10)]
               "token"))
         local_users []
       = [request]
       /\ method (init request) = "GET"
       /\ url request = URL_toString listed_users
       /\ search listed_users = "?offset=0&limit=10".
Proof.
  exact
    (listing_request
       (runtime (answering (Resolved found))) HandleError_model
       UsersClient
       (Users.call_Users [("offset", JNum 0); ("limit", JNum 10)] "token")
       local_users [] "users" [("offset", JNum 0); ("limit", JNum 10)]
       [("offset", "0"); ("limit", "10")] listed_users
       (reference_keeps_query (answering (Resolved found)))
       (ex_intro _ "http://localhost:9002"
          (ex_intro _ (Some "http://localhost:9006") eq_refl))
       eq_refl
       ltac:(repeat constructor; cbn; intuition discriminate)
       eq_refl eq_refl eq_refl).
Defined.

(** C7 as stated fails for a path argument that holds a [#]:
    [Users.ListUserGroups("d1", "u1#x", {limit: 10}, "token")] sends
    its request to a URL whose query string is empty, while the
    serialization of [{limit: "10"}] is [limit=10]; the path argument
    is spliced into the reference as it is, and what follows the [#] is
    the fragment of the URL. *)
Lemma fragment_in_path_counterexample :
  string_params (runtime (answering (Resolved found)))
    [("limit", JNum 10)]
  = Return [("limit", "10")]
  /\ URLSearchParams_toString [("limit", "10")] = "limit=10"
  /\ WHATWG.verdict "d1/users/u1#x/groups?limit=10"
       (Some (Users.usersUrl local_users))
     = WHATWG.Accepted
         {| href := "http://localhost:9002/d1/users/u1#x/groups?limit=10";
            host := "localhost:9002";
            search := "" |}
  /\ trace
       (Users.ListUserGroups (runtime (answering (Resolved found)))
          HandleError_model "d1" "u1#x" [("limit", JNum 10)] "token")
       local_users []
     = [{| url := "http://localhost:9002/d1/users/u1#x/groups?limit=10";
           init := listing_init |}]
  /\ target_search (runtime (answering (Resolved found)))
       {| url := "http://localhost:9002/d1/users/u1#x/groups?limit=10";
          init := listing_init |}
     = Some "".
Proof. repeat split. Qed.

(* ================================================================== *)
(** ** Constructing a Users client *)
(* ================================================================== *)



(* ================================================================== *)
(** ** Create without a token *)
(* ================================================================== *)

(** C9.  [Users.Create] called without its [token] argument, on a client
    against whose [usersUrl] the endpoint resolves: the request is sent
    all the same, and its [Authorization] header is the string
    ["Bearer undefined"]. *)
Theorem Create_without_token
  (rt : Runtime) (HandleError : JsValue -> Z -> JsValue) (this : Users.t)
  (user : JsObject) (before : list Request) (target : URL) :
  URL_new rt (Users.usersEndpoint this) (Some (Users.usersUrl this))
  = Some target ->
  trace (Users.Create rt HandleError user None) this before
  = (before
       ++ [{| url := URL_toString target;
              init :=
                {| method := "POST";
                   headers :=
                     [("Content-Type", Users.contentType this);
                      ("Authorization", "Bearer undefined")];
                   body := JSON_stringify rt (JObj user) |} |}])%list
  /\ header "Authorization"
       [("Content-Type", Users.contentType this);
        ("Authorization", "Bearer undefined")]
     = Some "Bearer undefined".
Proof.
  intros Parsed. split; [ | reflexivity ].
  pose proof
    (trace_invoke rt HandleError (k := UsersClient)
       (Users.call_Create user None) this before) as Trace.
  unfold plan, new_URL in Trace.
  cbn [reference Users_reference base Users_base and_then] in Trace.
  rewrite Parsed in Trace. exact Trace.
Qed.

(** [Users.Create({email: "jane@example.com"})] on the local client. *)
Lemma Create_without_token_witness :
  trace
    (Users.Create (runtime (answering (Resolved found))) HandleError_model
       [("email", JStr "jane@example.com")] None)
    local_users []
  = [{| url := "http://localhost:9002/users";
        init :=
          {| method := "POST";
             headers :=
               [("Content-Type", "application/json");
                ("Authorization", "Bearer undefined")];
             body :=
               JSON.stringify (JObj [("email", JStr "jane@example.com")])
          |} |}]
  /\ header "Authorization"
       [("Content-Type", "application/json");
        ("Authorization", "Bearer undefined")]
     = Some "Bearer undefined".
Proof.
  exact
    (Create_without_token
       (runtime (answering (Resolved found))) HandleError_model local_users
       [("email", JStr "jane@example.com")] []
       {| href := "http://localhost:9002/users"; host := "localhost:9002";
          search := "" |}
       eq_refl).
Defined.

(* ================================================================== *)
(** ** The bases of the three list methods *)
(* ================================================================== *)

(** C10, as amended.  [Users.ListUserClients] and
    [Users.ListUserChannels] resolve their request URL against
    [clientsUrl], [Users.ListUserGroups] resolves its own against
    [usersUrl]; so, on a client whose [usersUrl] and [clientsUrl] have
    different hosts, called with a domain id that is not empty and is
    made of letters, digits and hyphens, the request of
    [ListUserGroups] goes to the host of [usersUrl] and the requests of
    the other two go to the host of [clientsUrl], a different one.
    That a reference which starts with such an id and a slash is
    resolved on the host of its base is the URL Standard's rule
    [keeps_host]. *)
Theorem list_methods_bases
  (rt : Runtime) (HandleError : JsValue -> Z -> JsValue) (this : Users.t)
  (domainId userId : string) (queryParams : JsObject) (token : string)
  (before : list Request) (groups clients channels : Request) :
  trace
    (Users.ListUserGroups rt HandleError domainId userId queryParams token)
    this before
  = (before ++ [groups])%list ->
  trace
    (Users.ListUserClients rt HandleError userId domainId queryParams token)
    this before
  = (before ++ [clients])%list ->
  trace
    (Users.ListUserChannels rt HandleError domainId userId queryParams token)
    this before
  = (before ++ [channels])%list ->
  exists query to_groups to_clients to_channels,
    query_of rt queryParams = Return query
    /\ URL_new rt
         (domainId ++ "/" ++ Users.usersEndpoint this ++ "/" ++ userId
            ++ "/groups?" ++ query)
         (Some (Users.usersUrl this))
       = Some to_groups
    /\ url groups = URL_toString to_groups
    /\ URL_new rt
         (domainId ++ "/" ++ Users.usersEndpoint this ++ "/" ++ userId
            ++ "/clients?" ++ query)
         (Users.clientsUrl this)
       = Some to_clients
    /\ url clients = URL_toString to_clients
    /\ URL_new rt
         (domainId ++ "/" ++ Users.usersEndpoint this ++ "/" ++ userId
            ++ "/channels?" ++ query)
         (Users.clientsUrl this)
       = Some to_channels
    /\ url channels = URL_toString to_channels
    /\ (forall clientsUrl,
          Users.clientsUrl this = Some clientsUrl ->
          keeps_host rt (Users.usersUrl this) ->
          keeps_host rt clientsUrl ->
          domainId <> "" ->
          WHATWG.all id_byte domainId = true ->
          host (Users.usersUrl this) <> host clientsUrl ->
          host to_groups = host (Users.usersUrl this)
          /\ host to_clients = host clientsUrl
          /\ host to_channels = host clientsUrl
          /\ host to_groups <> host to_clients
          /\ host to_groups <> host to_channels).
Proof.
  intros Groups Clients Channels.
  apply (sent_planned rt HandleError (k := UsersClient)
           (Users.call_ListUserGroups domainId userId queryParams token))
    in Groups.
  apply (sent_planned rt HandleError (k := UsersClient)
           (Users.call_ListUserClients userId domainId queryParams token))
    in Clients.
  apply (sent_planned rt HandleError (k := UsersClient)
           (Users.call_ListUserChannels domainId userId queryParams token))
    in Channels.
  destruct (plan_request _ _ _ _ Groups) as [g [to_groups [Ig [G Rg]]]].
  destruct (plan_request _ _ _ _ Clients) as [c [to_clients [Ic [C Rc]]]].
  destruct (plan_request _ _ _ _ Channels)
    as [h [to_channels [Ih [H Rh]]]].
  cbn [reference Users_reference base Users_base] in Ig, Ic, Ih, G, C, H.
  unfold query_of.
  destruct (string_params rt queryParams) as [stringParams | e];
    cbn [and_then] in *; [ | discriminate Ig ].
  inversion Ig; inversion Ic; inversion Ih. subst g c h.
  exists (URLSearchParams_toString stringParams).
  exists to_groups, to_clients, to_channels.
  subst groups clients channels. cbn [url].
  repeat (split; [ first [ assumption | reflexivity ] | ]).
  intros clientsUrl Given Users Others Filled Id Differ.
  rewrite Given in C, H.
  pose proof (Users domainId _ to_groups Filled Id G) as Kept_groups.
  pose proof (Others domainId _ to_clients Filled Id C) as Kept_clients.
  pose proof (Others domainId _ to_channels Filled Id H) as Kept_channels.
  rewrite Kept_groups, Kept_clients, Kept_channels.
  repeat split; first [ reflexivity | assumption ].
Qed.

(** The three methods on the local client, whose services listen on
    the ports 9002 and 9006. *)
Lemma list_methods_bases_witness :
  exists to_groups to_clients to_channels,
    WHATWG.parse "d1/users/u1/groups?limit=10"
      (Some (Users.usersUrl local_users))
    = Some to_groups
    /\ WHATWG.parse "d1/users/u1/clients?limit=10"
         (Users.clientsUrl local_users)
       = Some to_clients
    /\ WHATWG.parse "d1/users/u1/channels?limit=10"
         (Users.clientsUrl local_users)
       = Some to_channels
    /\ host to_groups = "localhost:9002"
    /\ host to_clients = "localhost:9006"
    /\ host to_channels = "localhost:9006"
    /\ host to_groups <> host to_clients
    /\ host to_groups <> host to_channels.
Proof.
  destruct
    (list_methods_bases
       (runtime (answering (Resolved found))) HandleError_model local_users
       "d1" "u1" [("limit", JNum 10)] "token" []
       {| url := "http://localhost:9002/d1/users/u1/groups?limit=10";
          init := listing_init |}
       {| url := "http://localhost:9006/d1/users/u1/clients?limit=10";
          init := listing_init |}
       {| url := "http://localhost:9006/d1/users/u1/channels?limit=10";
          init := listing_init |}
       eq_refl eq_refl eq_refl)
    as [query [to_groups [to_clients [to_channels
         [Q [G [_ [C [_ [H [_ Hosts]]]]]]]]]]].
  exists to_groups, to_clients, to_channels.
  vm_compute in Q. inversion Q. subst query.
  repeat (split; [ assumption | ]).
  refine
    (Hosts
       {| href := "http://localhost:9006/"; host := "localhost:9006";
          search := "" |}
       eq_refl
       (reference_keeps_host _ (Users.usersUrl local_users)
          {| WHATWG.scheme := "http"; WHATWG.hostname := "localhost";
             WHATWG.port := Some 9002%N; WHATWG.path := [""];
             WHATWG.query := None; WHATWG.fragment := None |}
          eq_refl eq_refl)
       (reference_keeps_host _
          {| href := "http://localhost:9006/"; host := "localhost:9006";
             search := "" |}
          {| WHATWG.scheme := "http"; WHATWG.hostname := "localhost";
             WHATWG.port := Some 9006%N; WHATWG.path := [""];
             WHATWG.query := None; WHATWG.fragment := None |}
          eq_refl eq_refl)
       _ eq_refl _); discriminate.
Defined.

(** C10 as stated fails when the two services sit behind one host:
    the bases [http://localhost/users-api/] and
    [http://localhost/clients-api/] are distinct, and all three list
    methods send their request to [localhost]. *)
Lemma shared_host_counterexample :
  Users.constructor (runtime (answering (Resolved found)))
    "http://localhost/users-api/" (Some "http://localhost/clients-api/")
  = Return proxied_users
  /\ Some (Users.usersUrl proxied_users) <> Users.clientsUrl proxied_users
  /\ map (fun request =>
            (url request,
             target_host (runtime (answering (Resolved found))) request))
       (trace
          (Users.ListUserGroups (runtime (answering (Resolved found)))
             HandleError_model "d1" "u1" [] "token")
          proxied_users [])
     = [("http://localhost/users-api/d1/users/u1/groups?",
         Some "localhost")]
  /\ map (fun request =>
            (url request,
             target_host (runtime (answering (Resolved found))) request))
       (trace
          (Users.ListUserClients (runtime (answering (Resolved found)))
             HandleError_model "u1" "d1" [] "token")
          proxied_users [])
     = [("http://localhost/clients-api/d1/users/u1/clients?",
         Some "localhost")]
  /\ map (fun request =>
            (url request,
             target_host (runtime (answering (Resolved found))) request))
       (trace
          (Users.ListUserChannels (runtime (answering (Resolved found)))
             HandleError_model "d1" "u1" [] "token")
          proxied_users [])
     = [("http://localhost/clients-api/d1/users/u1/channels?",
         Some "localhost")].
Proof.
  repeat split. discriminate.
Qed.

(* ================================================================== *)
(** ** What a completed call says about the response *)
(* ================================================================== *)

(** X1.  Whatever the body of a response with a non-success status is
    (an error object, [null], no JSON at all), the method that received
    it throws; it never returns a value. *)
Theorem non_success_never_returns
  (rt : Runtime) (HandleError : JsValue -> Z -> JsValue) (k : Client)
  (c : Call k) (this : This k) (before : list Request) (request : Request)
  (response : Response) :
  trace (invoke rt HandleError c) this before = (before ++ [request])%list ->
  network rt before request = Resolved response ->
  ok response = false ->
  exists e, outcome (invoke rt HandleError c) this before = Throw e.
Proof.
  intros Sent Answer Status. apply sent_planned in Sent.
  rewrite (outcome_sent _ _ _ _ _ _ Sent), Answer.
  unfold conclude. rewrite Status.
  destruct (json response) as [errorRes | e]; [ | now exists e ].
  destruct (GetV errorRes "message") as [message | e]; cbn.
  - now exists (HandleError message (status response)).
  - now exists e.
Qed.

(** [Users.Disable({id: "u1"}, "token")] answered by a proxy with a 502
    and an HTML page. *)
Lemma non_success_never_returns_witness :
  exists e,
    outcome
      (invoke (runtime (answering (Resolved bad_gateway))) HandleError_model
         (k := UsersClient)
         (Users.call_Disable [("id", JStr "u1")] "token"))
      local_users []
    = Throw e.
Proof.
  exact
    (non_success_never_returns
       (runtime (answering (Resolved bad_gateway))) HandleError_model
       UsersClient (Users.call_Disable [("id", JStr "u1")] "token")
       local_users []
       {| url := "http://localhost:9002/users/u1/disable";
          init :=
            {| method := "POST";
               headers :=
                 [("Content-Type", "application/json");
                  ("Authorization", "Bearer token")];
               body := JSON.stringify (JObj [("id", JStr "u1")]) |} |}
       bad_gateway eq_refl eq_refl eq_refl).
Defined.

(** X2.  A value returned by a public request method always comes out of
    one fetched response with a status from 200 to 299: it is the parsed
    body of that response or, for the three methods with a fixed
    message, the status of that response with the message. *)
Theorem returned_value_comes_from_success
  (rt : Runtime) (HandleError : JsValue -> Z -> JsValue) (k : Client)
  (c : Call k) (this : This k) (before : list Request) (value : JsValue) :
  outcome (invoke rt HandleError c) this before = Return value ->
  exists request response,
    trace (invoke rt HandleError c) this before = (before ++ [request])%list
    /\ network rt before request = Resolved response
    /\ (200 <= status response <= 299)%Z
    /\ match fixed_message c with
       | Some message => value = status_message (status response) message
       | None => json response = Resolved value
       end.
Proof.
  intros Returned.
  destruct (plan rt this c) as [request | e] eqn:Planned.
  - rewrite (outcome_sent _ _ _ _ _ _ Planned) in Returned.
    destruct (network rt before request) as [response | e] eqn:Answer;
      [ | discriminate Returned ].
    exists request, response. rewrite trace_invoke, Planned.
    split; [ reflexivity | ]. split; [ exact Answer | ].
    unfold conclude in Returned.
    destruct (ok response) eqn:Status.
    + split.
      * unfold ok in Status. apply andb_true_iff in Status.
        destruct Status as [Low High].
        apply Z.leb_le in Low. apply Z.leb_le in High. lia.
      * destruct (fixed_message c) as [message | ].
        -- now inversion Returned.
        -- destruct (json response) as [data | e];
             [ now inversion Returned | discriminate Returned ].
    + destruct (json response) as [errorRes | e];
        [ | discriminate Returned ].
      destruct (GetV errorRes "message"); discriminate Returned.
  - rewrite (outcome_unplanned _ _ _ _ _ _ Planned) in Returned.
    discriminate Returned.
Qed.

(** [Users.ResetPassword("secret", "secret", "token")] answered 200. *)
Lemma returned_value_comes_from_success_witness :
  exists request response,
    trace
      (invoke (runtime (answering (Resolved found))) HandleError_model
         (k := UsersClient)
         (Users.call_ResetPassword "secret" "secret" "token"))
      local_users []
    = [request]
    /\ answering (Resolved found) [] request = Resolved response
    /\ (200 <= status response <= 299)%Z
    /\ status_message 200 "Password reset successfully"
       = status_message (status response) "Password reset successfully".
Proof.
  exact
    (returned_value_comes_from_success
       (runtime (answering (Resolved found))) HandleError_model
       UsersClient (Users.call_ResetPassword "secret" "secret" "token")
       local_users []
       (status_message 200 "Password reset successfully") eq_refl).
Defined.

(* ================================================================== *)
(** ** Content type and body of the requests *)
(* ================================================================== *)

(** X3.  On a constructed client, every request except the DELETE of
    [DeleteUser] declares [Content-Type: application/json]; the DELETE
    request has no [Content-Type] header. *)
Theorem content_type_header
  (rt : Runtime) (HandleError : JsValue -> Z -> JsValue) (k : Client)
  (c : Call k) (this : This k) (before : list Request) (request : Request) :
  constructed rt this ->
  trace (invoke rt HandleError c) this before = (before ++ [request])%list ->
  header "Content-Type" (headers (init request))
  = if String.eqb (method (init request)) "DELETE" then None
    else Some "application/json".
Proof.
  intros Built Sent. apply sent_planned in Sent.
  destruct (plan_request _ _ _ _ Sent) as [input [target [_ [_ Request]]]].
  subst request. apply constructed_content_type in Built.
  destruct k; destruct c; cbn in Built |- *; now rewrite ?Built.
Qed.

(** [Users.DeleteUser("u1", "token")] on the local client. *)
Lemma content_type_header_witness :
  trace
    (invoke (runtime (answering (Resolved found))) HandleError_model
       (k := UsersClient) (Users.call_DeleteUser "u1" "token"))
    local_users []
  = [{| url := "http://localhost:9002/users/u1";
        init :=
          {| method := "DELETE";
             headers := [("Authorization", "Bearer token")];
             body := None |} |}]
  /\ header "Content-Type" [("Authorization", "Bearer token")] = None.
Proof.
  split; [ reflexivity | ].
  exact
    (content_type_header
       (runtime (answering (Resolved found))) HandleError_model
       UsersClient (Users.call_DeleteUser "u1" "token") local_users []
       {| url := "http://localhost:9002/users/u1";
          init :=
            {| method := "DELETE";
               headers := [("Authorization", "Bearer token")];
               body := None |} |}
       (ex_intro _ "http://localhost:9002"
          (ex_intro _ (Some "http://localhost:9006") eq_refl))
       eq_refl).
Defined.

(** X4.  No GET or DELETE request carries a body: the reading methods
    and [DeleteUser] leave [body] out of what they hand to [fetch]. *)
Theorem reading_requests_have_no_body
  (rt : Runtime) (HandleError : JsValue -> Z -> JsValue) (k : Client)
  (c : Call k) (this : This k) (before : list Request) (request : Request) :
  trace (invoke rt HandleError c) this before = (before ++ [request])%list ->
  method (init request) = "GET" \/ method (init request) = "DELETE" ->
  body (init request) = None.
Proof.
  intros Sent Verb. apply sent_planned in Sent.
  destruct (plan_request _ _ _ _ Sent) as [input [target [_ [_ Request]]]].
  subst request.
  destruct k; destruct c; cbn in Verb |- *;
    first [ reflexivity | destruct Verb as [Verb | Verb]; discriminate Verb ].
Qed.

(** [Users.SearchUsers({first_name: "Jane"}, "token")]. *)
Lemma reading_requests_have_no_body_witness :
  trace
    (invoke (runtime (answering (Resolved found))) HandleError_model
       (k := UsersClient)
       (Users.call_SearchUsers [("first_name", JStr "Jane")] "token"))
    local_users []
  = [{| url := "http://localhost:9002/users/search?first_name=Jane";
        init := listing_init |}]
  /\ body listing_init = None.
Proof.
  split; [ reflexivity | ].
  exact
    (reading_requests_have_no_body
       (runtime (answering (Resolved found))) HandleError_model
       UsersClient
       (Users.call_SearchUsers [("first_name", JStr "Jane")] "token")
       local_users []
       {| url := "http://localhost:9002/users/search?first_name=Jane";
          init := listing_init |}
       eq_refl (or_introl eq_refl)).
Defined.

(* ================================================================== *)
(** ** Calls one after the other *)
(* ================================================================== *)

Lemma lifetime_fetched
  (rt : Runtime) (HandleError : JsValue -> Z -> JsValue) (k : Client)
  (calls : list (Call k)) :
  forall s : Store (This k),
    fetched (lifetime rt HandleError calls s)
    = (fetched s
         ++ flat_map
              (fun c => trace (invoke rt HandleError c) (self s) [])
              calls)%list.
Proof.
  induction calls as [ | c rest IH]; intros [this before]; cbn [lifetime].
  - cbn. now rewrite app_nil_r.
  - rewrite IH.
    change (self (snd (invoke rt HandleError c
                         {| self := this; fetched := before |})))
      with (receiver_after (invoke rt HandleError c) this before).
    change (fetched (snd (invoke rt HandleError c
                            {| self := this; fetched := before |})))
      with (trace (invoke rt HandleError c) this before).
    rewrite receiver_invoke. cbn [flat_map self fetched].
    rewrite (trace_invoke rt HandleError c this before).
    rewrite (trace_invoke rt HandleError c this []).
    cbn [app]. now rewrite <- app_assoc.
Qed.

(** X5.  Calls do not interfere: after any sequence of calls on a
    client, the requests handed to [fetch] are those made before,
    followed, call by call and in order, by what each call sends when it
    is made on its own, whatever the earlier calls were answered. *)
Theorem calls_compose
  (rt : Runtime) (HandleError : JsValue -> Z -> JsValue) (k : Client)
  (calls : list (Call k)) (this : This k) (before : list Request) :
  fetched
    (lifetime rt HandleError calls {| self := this; fetched := before |})
  = (before
       ++ flat_map
            (fun c => trace (invoke rt HandleError c) this []) calls)%list.
Proof.
  exact
    (lifetime_fetched rt HandleError k calls
       {| self := this; fetched := before |}).
Qed.

(** X6.  Making the same calls in another order sends the same requests,
    in another order: none is added, lost or changed. *)
Theorem reordered_calls_send_the_same_requests
  (rt : Runtime) (HandleError : JsValue -> Z -> JsValue) (k : Client)
  (calls calls' : list (Call k)) (s : Store (This k)) :
  Permutation calls calls' ->
  Permutation
    (fetched (lifetime rt HandleError calls s))
    (fetched (lifetime rt HandleError calls' s)).
Proof.
  intros Reordered. rewrite !lifetime_fetched.
  apply Permutation_app_head. now apply Permutation_flat_map.
Qed.

(** [User] then [DeleteUser], and [DeleteUser] then [User]. *)
Lemma reordered_calls_send_the_same_requests_witness :
  Permutation
    (fetched
       (lifetime (runtime (answering (Resolved not_found)))
          HandleError_model (k := UsersClient)
          [Users.call_User "u1" "token"; Users.call_DeleteUser "u1" "token"]
          {| self := local_users; fetched := [] |}))
    (fetched
       (lifetime (runtime (answering (Resolved not_found)))
          HandleError_model (k := UsersClient)
          [Users.call_DeleteUser "u1" "token"; Users.call_User "u1" "token"]
          {| self := local_users; fetched := [] |})).
Proof.
  exact
    (reordered_calls_send_the_same_requests
       (runtime (answering (Resolved not_found))) HandleError_model
       UsersClient
       [Users.call_User "u1" "token"; Users.call_DeleteUser "u1" "token"]
       [Users.call_DeleteUser "u1" "token"; Users.call_User "u1" "token"]
       {| self := local_users; fetched := [] |}
       (perm_swap _ _ [])).
Defined.

(** An array is converted element by element. *)
Lemma ToString_items (rt : Runtime) (x : JsValue) (rest : list JsValue) :
  ToString rt (JArr (x :: rest))
  = and_then
      match x with
      | JUndefined | JNull => Return ""
      | _ => ToString rt x
      end
      (fun piece =>
         match rest with
         | [] => Return piece
         | _ :: _ =>
             and_then (ToString rt (JArr rest)) (fun others =>
             Return (piece ++ "," ++ others))
         end).
Proof. reflexivity. Qed.

Lemma ToString_agrees (rt1 rt2 : Runtime) :
  (forall n, Number_toString rt1 n = Number_toString rt2 n) ->
  forall value, ToString rt1 value = ToString rt2 value.
Proof.
  intros Same_Number. fix IH 1.
  intros [ | | flag | n | s | items | props]; try reflexivity.
  - cbn [ToString]. now rewrite Same_Number.
  - revert items. fix Rest 1. intros [ | x rest]; [ reflexivity | ].
    pose proof (IH x) as Head. pose proof (Rest rest) as Tail.
    rewrite !ToString_items, Tail.
    destruct x; try reflexivity; now rewrite Head.
Qed.

Lemma plan_ignores_network
  (rt1 rt2 : Runtime) (k : Client) (c : Call k) (this : This k) :
  (forall input from, URL_new rt1 input from = URL_new rt2 input from) ->
  (forall value, JSON_stringify rt1 value = JSON_stringify rt2 value) ->
  (forall n, Number_toString rt1 n = Number_toString rt2 n) ->
  plan rt1 this c = plan rt2 this c.
Proof.
  intros Same_URL Same_JSON Same_Number. unfold plan, new_URL.
  assert (Options : options rt1 this c = options rt2 this c).
  { destruct k; destruct c; cbn; now rewrite ?Same_JSON. }
  assert (Strings :
    forall queryParams,
      string_params rt1 queryParams = string_params rt2 queryParams).
  { intros queryParams. unfold string_params. f_equal.
    induction (Object_entries queryParams) as [ | [key value] rest Rest];
      [ reflexivity | ].
    cbn [Array_map].
    now rewrite Rest, (ToString_agrees rt1 rt2 Same_Number value). }
  assert (Reference : reference rt1 this c = reference rt2 this c).
  { destruct k; destruct c; cbn [reference Users_reference];
      rewrite ?Strings, ?(ToString_agrees rt1 rt2 Same_Number);
      reflexivity. }
  rewrite Options, Reference.
  destruct (reference rt2 this c) as [input | e]; cbn [and_then];
    [ now rewrite Same_URL | reflexivity ].
Qed.

(** X7.  The request a call sends is decided by the receiver and the
    arguments alone: on two runtimes that agree on [new URL],
    [JSON.stringify] and the conversion of numbers to strings, with any
    two networks, any two error mappers and after any two histories, the
    call adds the same requests. *)
Theorem requests_ignore_the_network
  (rt1 rt2 : Runtime) (HandleError1 HandleError2 : JsValue -> Z -> JsValue)
  (k : Client) (c : Call k) (this : This k)
  (before1 before2 : list Request) :
  (forall input from, URL_new rt1 input from = URL_new rt2 input from) ->
  (forall value, JSON_stringify rt1 value = JSON_stringify rt2 value) ->
  (forall n, Number_toString rt1 n = Number_toString rt2 n) ->
  exists sent,
    trace (invoke rt1 HandleError1 c) this before1 = (before1 ++ sent)%list
    /\ trace (invoke rt2 HandleError2 c) this before2
       = (before2 ++ sent)%list
    /\ (length sent <= 1)%nat.
Proof.
  intros Same_URL Same_JSON Same_Number. rewrite !trace_invoke.
  rewrite
    (plan_ignores_network rt1 rt2 k c this Same_URL Same_JSON Same_Number).
  destruct (plan rt2 this c) as [request | e].
  - exists [request]. cbn. repeat split; lia.
  - exists []. cbn. repeat split; lia.
Qed.

(** [Users.UserProfile("token")], answered 200 on a fresh client and
    unanswered after an earlier request. *)
Lemma requests_ignore_the_network_witness :
  exists sent,
    trace
      (invoke (runtime (answering (Resolved found))) HandleError_model
         (k := UsersClient) (Users.call_UserProfile "token"))
      local_users []
    = ([] ++ sent)%list
    /\ trace
         (invoke (runtime (answering (Rejected fetch_failed)))
            (fun _ _ => JNull) (k := UsersClient)
            (Users.call_UserProfile "token"))
         local_users
         [{| url := "http://localhost:9002/users"; init := listing_init |}]
       = ([{| url := "http://localhost:9002/users"; init := listing_init |}]
            ++ sent)%list
    /\ (length sent <= 1)%nat.
Proof.
  exact
    (requests_ignore_the_network
       (runtime (answering (Resolved found)))
       (runtime (answering (Rejected fetch_failed)))
       HandleError_model (fun _ _ => JNull)
       UsersClient (Users.call_UserProfile "token") local_users
       []
       [{| url := "http://localhost:9002/users"; init := listing_init |}]
       (fun _ _ => eq_refl) (fun _ => eq_refl) (fun _ => eq_refl)).
Defined.

(* ================================================================== *)
(** ** The string parameters and the query string *)
(* ================================================================== *)

Lemma lookup_converted
  (rt : Runtime) (queryParams : JsObject)
  (stringParams : list (string * string)) (key : string) :
  Forall2
    (fun kv entry =>
       fst entry = fst kv /\ ToString rt (snd kv) = Return (snd entry))
    queryParams stringParams ->
  In key (map fst queryParams) ->
  exists text,
    ToString rt (get key queryParams) = Return text
    /\ lookup key stringParams = Some text.
Proof.
  induction 1 as [ | [k value] [k' text] q sp [Key Converted] _ IH];
    cbn; intros Present.
  - contradiction.
  - cbn in Key, Converted. subst k'.
    destruct (String.eqb_spec k key) as [Same | Other].
    + now exists text.
    + apply IH. now destruct Present.
Qed.

Lemma get_member (key : string) (value : JsValue) (o : JsObject) :
  NoDup (map fst o) -> In (key, value) o -> get key o = value.
Proof.
  induction o as [ | [k v] rest IH]; cbn; intros Unique Member.
  - contradiction.
  - inversion Unique as [ | ? ? Fresh Others]; subst.
    destruct Member as [Here | Later].
    + inversion Here; subst. now rewrite String.eqb_refl.
    + destruct (String.eqb_spec k key) as [Same | Other].
      * subst k. exfalso. apply Fresh.
        exact (in_map fst rest (key, value) Later).
      * now apply IH.
Qed.

(** X9.  When [stringParams] is built, it keeps every key of
    [queryParams], in the same order, and under each key holds
    [String(value)] of the value [queryParams] has there; a parameter
    whose value is [undefined] is not dropped but becomes the string
    ["undefined"].  It is not built when [String()] throws on the value
    of a parameter, and what is thrown then is what [String()] threw.
    The keys of [queryParams] are distinct. *)
Theorem string_params_lookup (rt : Runtime) (queryParams : JsObject) :
  NoDup (map fst queryParams) ->
  (forall stringParams,
     string_params rt queryParams = Return stringParams ->
     map fst stringParams = map fst queryParams
     /\ (forall key,
           In key (map fst queryParams) ->
           exists text,
             ToString rt (get key queryParams) = Return text
             /\ lookup key stringParams = Some text)
     /\ (forall key,
           In key (map fst queryParams) ->
           get key queryParams = JUndefined ->
           lookup key stringParams = Some "undefined"))
  /\ (forall e,
        string_params rt queryParams = Throw e ->
        exists key,
          In key (map fst queryParams)
          /\ ToString rt (get key queryParams) = Throw e).
Proof.
  intros Unique. split.
  - intros stringParams Built.
    pose proof (string_params_distinct rt _ _ Unique Built) as Entries.
    split; [ | split ].
    + clear Unique Built.
      induction Entries as [ | kv entry q sp [Key _] _ IH];
        [ reflexivity | cbn; now rewrite Key, IH ].
    + intros key Present.
      exact (lookup_converted rt _ _ key Entries Present).
    + intros key Present Missing.
      destruct (lookup_converted rt _ _ key Entries Present)
        as [text [Converted Found]].
      rewrite Missing in Converted. cbn in Converted.
      inversion Converted. subst text. exact Found.
  - intros e. unfold string_params, Object_entries.
    destruct (Array_map _ queryParams) as [entries | e'] eqn:Mapped;
      cbn [and_then]; [ discriminate | ].
    intros Thrown. inversion Thrown. subst e'.
    destruct (Array_map_thrown _ _ _ Mapped) as [[key value] [Member Failed]].
    exists key. split.
    + exact (in_map fst queryParams (key, value) Member).
    + rewrite (get_member key value queryParams Unique Member).
      destruct (ToString rt value) as [text | e'];
        [ discriminate Failed | ].
      cbn in Failed. now inversion Failed.
Qed.

(** The parameters [{offset: 0, name: undefined}]. *)
Lemma string_params_lookup_witness :
  string_params (runtime (answering (Resolved found)))
    [("offset", JNum 0); ("name", JUndefined)]
  = Return [("offset", "0"); ("name", "undefined")]
  /\ map fst [("offset", "0"); ("name", "undefined")] = ["offset"; "name"]
  /\ lookup "name" [("offset", "0"); ("name", "undefined")]
     = Some "undefined".
Proof.
  split; [ reflexivity | ]. split.
  - exact
      (proj1
         (proj1
            (string_params_lookup (runtime (answering (Resolved found)))
               [("offset", JNum 0); ("name", JUndefined)]
               ltac:(repeat constructor; cbn; intuition discriminate))
            [("offset", "0"); ("name", "undefined")] eq_refl)).
  - exact
      (proj2
         (proj2
            (proj1
               (string_params_lookup (runtime (answering (Resolved found)))
                  [("offset", JNum 0); ("name", JUndefined)]
                  ltac:(repeat constructor; cbn; intuition discriminate))
               [("offset", "0"); ("name", "undefined")] eq_refl))
         "name" ltac:(cbn; tauto) eq_refl).
Defined.

(** X10.  Whatever the keys and values of [queryParams] are, the query
    string a listing method builds from them is made of letters, digits
    and the bytes [* - . _ + % = &] only: no parameter can bring a [#],
    a [?], a [/], a space or a control byte into the URL. *)
Theorem query_bytes_are_safe
  (rt : Runtime) (queryParams : JsObject) (query : string) :
  query_of rt queryParams = Return query ->
  WHATWG.all
    (fun c =>
       is_alnum c || Ascii.eqb c "*" || Ascii.eqb c "-" || Ascii.eqb c "."
       || Ascii.eqb c "_" || Ascii.eqb c "+" || Ascii.eqb c "%"
       || Ascii.eqb c "=" || Ascii.eqb c "&")
    query
  = true.
Proof.
  unfold query_of.
  destruct (string_params rt queryParams) as [stringParams | e];
    cbn [and_then]; [ | discriminate ].
  intros Built. inversion Built.
  exact (URLSearchParams_bytes stringParams).
Qed.

(** The parameters [{name: "a b#c?d/e"}]. *)
Lemma query_bytes_are_safe_witness :
  query_of (runtime (answering (Resolved found)))
    [("name", JStr "a b#c?d/e")]
  = Return "name=a+b%23c%3Fd%2Fe"
  /\ WHATWG.all
       (fun c =>
          is_alnum c || Ascii.eqb c "*" || Ascii.eqb c "-"
          || Ascii.eqb c "." || Ascii.eqb c "_" || Ascii.eqb c "+"
          || Ascii.eqb c "%" || Ascii.eqb c "=" || Ascii.eqb c "&")
       "name=a+b%23c%3Fd%2Fe"
     = true.
Proof.
  split; [ reflexivity | ].
  exact
    (query_bytes_are_safe (runtime (answering (Resolved found)))
       [("name", JStr "a b#c?d/e")] "name=a+b%23c%3Fd%2Fe" eq_refl).
Defined.

Lemma occurrences_append (c : ascii) (a b : string) :
  occurrences c (a ++ b) = occurrences c a + occurrences c b.
Proof.
  induction a as [ | d a IH]; cbn; [ reflexivity | ].
  destruct (Ascii.eqb d c); cbn; now rewrite IH.
Qed.

Lemma urlencode_separators (s : string) :
  occurrences "&" (urlencode s) = 0 /\ occurrences "=" (urlencode s) = 0.
Proof.
  induction s as [ | c rest [Ampersands Equals]]; [ now split | ].
  destruct c as [[] [] [] [] [] [] [] []]; cbn; now split.
Qed.

Lemma URLSearchParams_separators (record : list (string * string)) :
  occurrences "=" (URLSearchParams_toString record) = length record
  /\ occurrences "&" (URLSearchParams_toString record)
     = pred (length record).
Proof.
  induction record as [ | [key value] rest [Equals Ampersands]];
    [ now split | ].
  cbn [URLSearchParams_toString].
  destruct (urlencode_separators key) as [Key_amp Key_eq].
  destruct (urlencode_separators value) as [Value_amp Value_eq].
  destruct rest as [ | next rest].
  - rewrite !occurrences_append, Key_amp, Key_eq, Value_amp, Value_eq.
    now split.
  - rewrite !occurrences_append, Key_amp, Key_eq, Value_amp, Value_eq,
      Equals, Ampersands.
    now split.
Qed.

(** X11.  The query string has one [name=value] pair for each key of
    [queryParams] and nothing more: it holds as many [=] as there are
    parameters and one [&] less, so a key or a value that contains [&]
    or [=] cannot add a parameter. *)
Theorem one_pair_for_each_parameter
  (rt : Runtime) (queryParams : JsObject) (query : string) :
  NoDup (map fst queryParams) ->
  query_of rt queryParams = Return query ->
  occurrences "=" query = length queryParams
  /\ occurrences "&" query = pred (length queryParams).
Proof.
  intros Unique. unfold query_of.
  destruct (string_params rt queryParams) as [stringParams | e] eqn:Strings;
    cbn [and_then]; [ | discriminate ].
  intros Built. inversion Built. subst query.
  destruct (URLSearchParams_separators stringParams)
    as [Equals Ampersands].
  rewrite Equals, Ampersands.
  pose proof (string_params_distinct rt _ _ Unique Strings) as Entries.
  rewrite (Forall2_length Entries). now split.
Qed.

(** The parameters [{name: "a&admin=true"}]. *)
Lemma one_pair_for_each_parameter_witness :
  query_of (runtime (answering (Resolved found)))
    [("name", JStr "a&admin=true")]
  = Return "name=a%26admin%3Dtrue"
  /\ occurrences "=" "name=a%26admin%3Dtrue" = 1
  /\ occurrences "&" "name=a%26admin%3Dtrue" = 0.
Proof.
  split; [ reflexivity | ].
  exact
    (one_pair_for_each_parameter (runtime (answering (Resolved found)))
       [("name", JStr "a&admin=true")] "name=a%26admin%3Dtrue"
       ltac:(repeat constructor; cbn; intuition discriminate) eq_refl).
Defined.

(* ================================================================== *)
(** ** The methods that address one user *)
(* ================================================================== *)

Lemma addressed_reference
  (rt : Runtime) (this : Users.t) (c : Users.Call) (value : JsValue)
  (suffix : string) :
  constructed rt (k := UsersClient) this ->
  addressed c = Some (value, suffix) ->
  Users_reference rt this c
  = and_then (ToString rt value) (fun id =>
    Return ("users/" ++ id ++ suffix))
  /\ Users_base this c = Some (Users.usersUrl this).
Proof.
  intros Built Addressed.
  destruct (constructed_users rt this Built) as [Users _].
  destruct c; try discriminate Addressed; inversion Addressed; subst;
    cbn [Users_reference Users_base ToString and_then]; rewrite Users;
    try (destruct (ToString rt _); cbn [and_then]);
    rewrite ?append_empty; split; reflexivity.
Qed.

(** X12.  [Update], [UpdateEmail], [UpdateUsername],
    [UpdateProfilePicture], [UpdateUserTags], [UpdateUserRole],
    [Disable] and [Enable] address [users/{String(user.id)}] followed by
    their own suffix, [User] and [DeleteUser] address [users/{userId}],
    all against [usersUrl]; a user object without an [id] is therefore
    sent to [users/undefined].  When [String(user.id)] throws, the
    method throws what it threw and sends nothing. *)
Theorem addressed_request
  (rt : Runtime) (HandleError : JsValue -> Z -> JsValue) (this : Users.t)
  (c : Users.Call) (before : list Request) (value : JsValue)
  (suffix : string) :
  constructed rt (k := UsersClient) this ->
  addressed c = Some (value, suffix) ->
  (forall request,
     trace (invoke rt HandleError (k := UsersClient) c) this before
     = (before ++ [request])%list ->
     exists id target,
       ToString rt value = Return id
       /\ URL_new rt ("users/" ++ id ++ suffix) (Some (Users.usersUrl this))
          = Some target
       /\ url request = URL_toString target)
  /\ (forall e,
        ToString rt value = Throw e ->
        outcome (invoke rt HandleError (k := UsersClient) c) this before
        = Throw e
        /\ trace (invoke rt HandleError (k := UsersClient) c) this before
           = before).
Proof.
  intros Built Addressed.
  destruct (addressed_reference rt this c value suffix Built Addressed)
    as [Reference Base].
  split.
  - intros request Sent. apply sent_planned in Sent.
    destruct (plan_request _ _ _ _ Sent)
      as [input [target [Input [Parsed Request]]]].
    cbn [reference base] in Input, Parsed.
    rewrite Reference in Input. rewrite Base in Parsed.
    destruct (ToString rt value) as [id | e]; cbn [and_then] in Input;
      [ | discriminate Input ].
    inversion Input. subst input.
    exists id, target.
    split; [ reflexivity | ]. split; [ exact Parsed | now subst request ].
  - intros e Thrown.
    assert (Plan : plan rt (k := UsersClient) this c = Throw e).
    { unfold plan. cbn [reference]. now rewrite Reference, Thrown. }
    split.
    + exact
        (outcome_unplanned rt HandleError (k := UsersClient) c this before
           e Plan).
    + rewrite trace_invoke, Plan. apply app_nil_r.
Qed.

(** [Users.UpdateUserRole({role: "admin"}, "token")], a user object
    without an id. *)
Lemma addressed_request_witness :
  exists id target,
    ToString (runtime (answering (Resolved found))) JUndefined = Return id
    /\ WHATWG.parse ("users/" ++ id ++ "/role")
         (Some (Users.usersUrl local_users))
       = Some target
    /\ "http://localhost:9002/users/undefined/role" = URL_toString target.
Proof.
  exact
    (proj1
       (addressed_request
          (runtime (answering (Resolved found))) HandleError_model
          local_users
          (Users.call_UpdateUserRole [("role", JStr "admin")] "token") []
          JUndefined "/role"
          (ex_intro _ "http://localhost:9002"
             (ex_intro _ (Some "http://localhost:9006") eq_refl))
          eq_refl)
       {| url := "http://localhost:9002/users/undefined/role";
          init :=
            {| method := "PATCH";
               headers :=
                 [("Content-Type", "application/json");
                  ("Authorization", "Bearer token")];
               body := JSON.stringify (JObj [("role", JStr "admin")]) |} |}
       eq_refl).
Defined.

(** X13.  The id handed to [Users.User] goes into the path as it is,
    without escaping: called with an id followed by the suffix of one of
    the methods that address a user ([/disable], [/role], ...), it
    requests the very URL of that method for that id. *)
Theorem user_id_is_spliced_unescaped
  (rt : Runtime) (HandleError : JsValue -> Z -> JsValue) (this : Users.t)
  (c : Users.Call) (before : list Request) (value : JsValue)
  (id suffix token : string) (asked other : Request) :
  addressed c = Some (value, suffix) ->
  ToString rt value = Return id ->
  trace (Users.User rt HandleError (id ++ suffix) token) this before
  = (before ++ [asked])%list ->
  trace (invoke rt HandleError (k := UsersClient) c) this before
  = (before ++ [other])%list ->
  url asked = url other.
Proof.
  intros Addressed Converted Asked Other.
  apply (sent_planned rt HandleError (k := UsersClient)
           (Users.call_User (id ++ suffix) token)) in Asked.
  apply sent_planned in Other.
  destruct (plan_request _ _ _ _ Asked)
    as [input [target [Input [Parsed Request]]]].
  destruct (plan_request _ _ _ _ Other)
    as [input' [target' [Input' [Parsed' Request']]]].
  subst asked other. cbn [url].
  cbn [reference base] in Input, Input', Parsed, Parsed'.
  assert (Same :
    Users_reference rt this c
    = Users_reference rt this (Users.call_User (id ++ suffix) token)
    /\ Users_base this c = Some (Users.usersUrl this)).
  { destruct c; try discriminate Addressed; inversion Addressed; subst;
      cbn [Users_reference Users_base];
      try rewrite Converted;
      cbn [ToString and_then] in Converted |- *;
      try (inversion Converted; subst);
      repeat first [ rewrite append_assoc | rewrite append_empty ];
      split; reflexivity. }
  destruct Same as [Reference Base].
  rewrite Reference, Input in Input'. inversion Input'. subst input'.
  rewrite Base in Parsed'. cbn [Users_base] in Parsed.
  rewrite Parsed in Parsed'. now inversion Parsed'.
Qed.

(** [Users.User("u1/disable", "token")] and
    [Users.Disable({id: "u1"}, "token")]. *)
Lemma user_id_is_spliced_unescaped_witness :
  map url
    (trace
       (Users.User (runtime (answering (Resolved found))) HandleError_model
          "u1/disable" "token")
       local_users [])
  = ["http://localhost:9002/users/u1/disable"]
  /\ map method
       (map init
          (trace
             (Users.Disable (runtime (answering (Resolved found)))
                HandleError_model [("id", JStr "u1")] "token")
             local_users []))
     = ["POST"]
  /\ url
       {| url := "http://localhost:9002/users/u1/disable";
          init := listing_init |}
     = "http://localhost:9002/users/u1/disable".
Proof.
  split; [ reflexivity | ]. split; [ reflexivity | ].
  exact
    (user_id_is_spliced_unescaped
       (runtime (answering (Resolved found))) HandleError_model local_users
       (Users.call_Disable [("id", JStr "u1")] "token") []
       (JStr "u1") "u1" "/disable" "token"
       {| url := "http://localhost:9002/users/u1/disable";
          init := listing_init |}
       {| url := "http://localhost:9002/users/u1/disable";
          init :=
            {| method := "POST";
               headers :=
                 [("Content-Type", "application/json");
                  ("Authorization", "Bearer token")];
               body := JSON.stringify (JObj [("id", JStr "u1")]) |} |}
       eq_refl eq_refl eq_refl eq_refl).
Defined.

(* ================================================================== *)
(** ** Where the token and the user record go *)
(* ================================================================== *)

Lemma with_token_plan
  (rt : Runtime) (k : Client) (c : Call k) (this : This k) (token : string) :
  reference rt this (with_token token c) = reference rt this c
  /\ base this (with_token token c) = base this c
  /\ method (options rt this (with_token token c))
     = method (options rt this c)
  /\ body (options rt this (with_token token c)) = body (options rt this c)
  /\ unauthenticated (headers (options rt this (with_token token c)))
     = unauthenticated (headers (options rt this c)).
Proof.
  destruct k; destruct c; cbn; repeat split;
    match goal with
    | |- context [String.eqb ?a "Authorization"] =>
        destruct (String.eqb a "Authorization"); reflexivity
    | _ => reflexivity
    end.
Qed.

(** X14.  The bearer token of a call goes into the [Authorization]
    header and nowhere else: made with another token, the call sends a
    request with the same URL, the same method, the same body and the
    same other headers. *)
Theorem token_only_in_authorization_header
  (rt : Runtime) (HandleError : JsValue -> Z -> JsValue) (k : Client)
  (c : Call k) (this : This k) (before : list Request) (token : string)
  (request request' : Request) :
  trace (invoke rt HandleError c) this before = (before ++ [request])%list ->
  trace (invoke rt HandleError (with_token token c)) this before
  = (before ++ [request'])%list ->
  url request' = url request
  /\ method (init request') = method (init request)
  /\ body (init request') = body (init request)
  /\ unauthenticated (headers (init request'))
     = unauthenticated (headers (init request)).
Proof.
  intros Sent Sent'. apply sent_planned in Sent. apply sent_planned in Sent'.
  destruct (plan_request _ _ _ _ Sent)
    as [input [target [Input [Parsed Request]]]].
  destruct (plan_request _ _ _ _ Sent')
    as [input' [target' [Input' [Parsed' Request']]]].
  destruct (with_token_plan rt k c this token)
    as [Reference [Base [Verb [Body Headers]]]].
  rewrite Reference, Input in Input'. inversion Input'. subst input'.
  rewrite Base, Parsed in Parsed'. inversion Parsed'.
  subst. cbn [url init]. repeat split; assumption.
Qed.

(** [Users.UpdateUserPassword("old", "new", _)] with the tokens
    ["token"] and ["another"]. *)
Lemma token_only_in_authorization_header_witness :
  trace
    (Users.UpdateUserPassword (runtime (answering (Resolved found)))
       HandleError_model "old" "new" "token")
    local_users []
  = [password_request "token"]
  /\ trace
       (Users.UpdateUserPassword (runtime (answering (Resolved found)))
          HandleError_model "old" "new" "another")
       local_users []
     = [password_request "another"]
  /\ url (password_request "another") = url (password_request "token")
  /\ method (init (password_request "another"))
     = method (init (password_request "token"))
  /\ body (init (password_request "another"))
     = body (init (password_request "token"))
  /\ unauthenticated (headers (init (password_request "another")))
     = unauthenticated (headers (init (password_request "token"))).
Proof.
  split; [ reflexivity | ]. split; [ reflexivity | ].
  exact
    (token_only_in_authorization_header
       (runtime (answering (Resolved found))) HandleError_model
       UsersClient (Users.call_UpdateUserPassword "old" "new" "token")
       local_users [] "another"
       (password_request "token") (password_request "another")
       eq_refl eq_refl).
Defined.

Lemma run_of_plan
  (rt : Runtime) (HandleError : JsValue -> Z -> JsValue) (k : Client)
  (c c' : Call k) (this : This k) (before : list Request) :
  plan rt this c = plan rt this c' ->
  fixed_message c = fixed_message c' ->
  run (invoke rt HandleError c) this before
  = run (invoke rt HandleError c') this before.
Proof. intros Plan Fixed. now rewrite !run_invoke, Plan, Fixed. Qed.

(** X15.  [UpdateEmail], [UpdateUsername] and [UpdateProfilePicture]
    take from the user record its id and the one field they update, and
    nothing else: on two records that agree on these, the call sends the
    same request and completes alike, whatever else the records hold. *)
Theorem partial_updates_read_one_field
  (rt : Runtime) (HandleError : JsValue -> Z -> JsValue) (this : Users.t)
  (before : list Request) (user user' : JsObject) (token : string) :
  get "id" user = get "id" user' ->
  (get "email" user = get "email" user' ->
   run (Users.UpdateEmail rt HandleError user token) this before
   = run (Users.UpdateEmail rt HandleError user' token) this before)
  /\ (optional_chain (get "credentials" user) "username"
      = optional_chain (get "credentials" user') "username" ->
      run (Users.UpdateUsername rt HandleError user token) this before
      = run (Users.UpdateUsername rt HandleError user' token) this before)
  /\ (get "profile_picture" user = get "profile_picture" user' ->
      run (Users.UpdateProfilePicture rt HandleError user token) this before
      = run (Users.UpdateProfilePicture rt HandleError user' token) this
          before).
Proof.
  intros Id. repeat split; intros Field.
  - apply (run_of_plan rt HandleError UsersClient
             (Users.call_UpdateEmail user token)
             (Users.call_UpdateEmail user' token));
      [ | reflexivity ].
    unfold plan. cbn. now rewrite Id, Field.
  - apply (run_of_plan rt HandleError UsersClient
             (Users.call_UpdateUsername user token)
             (Users.call_UpdateUsername user' token));
      [ | reflexivity ].
    unfold plan. cbn. now rewrite Id, Field.
  - apply (run_of_plan rt HandleError UsersClient
             (Users.call_UpdateProfilePicture user token)
             (Users.call_UpdateProfilePicture user' token));
      [ | reflexivity ].
    unfold plan. cbn. now rewrite Id, Field.
Qed.

(** [Users.UpdateEmail] on a full user record and on its id and
    email. *)
Lemma partial_updates_read_one_field_witness :
  run
    (Users.UpdateEmail (runtime (answering (Resolved found)))
       HandleError_model jane "token")
    local_users []
  = run
      (Users.UpdateEmail (runtime (answering (Resolved found)))
         HandleError_model jane_email "token")
      local_users [].
Proof.
  exact
    (proj1
       (partial_updates_read_one_field
          (runtime (answering (Resolved found))) HandleError_model
          local_users [] jane jane_email "token" eq_refl)
       eq_refl).
Defined.

(* ================================================================== *)
(** ** Everything a method can throw *)
(* ================================================================== *)




